(** * asgi_bench.spec: the benchmark test-matrix builder

    A shallow embedding of [src/asgi_bench/spec.py]: the static catalogue
    [TEST_CATEGORIES], the index [CATEGORIES_BY_NAME] and the expansion
    function [make_spec], followed by the properties of the expansion.

    Conventions of the embedding.
    - Python [str] is [string]; Python [int] is [Z]; [T | None] is [option T].
    - Tuples and lists of the source are [list]s; the [defaultdict(list)] of
      requested versions is a [gmap string (list (option string))].
    - The only effect of [make_spec] is listing the directory
      [Path.cwd() / "frameworks"].  The directory is an explicit argument;
      listing fails (the exception of [iterdir]) when it cannot be read, and a
      raised exception is the result [None].
    - The local lists that the source grows with [append] are accumulators
      threaded through [foldl].
    - For what holds of one invocation after another, the function is
      embedded a second time, [make_spec_in_heap], on the heap of the
      process: lists and the dictionary are objects with an identity, and
      the result is the location of a list.  The two embeddings are proved
      to agree. *)

From stdpp Require Import gmap strings list fin_maps.
From Stdlib Require Import ZArith Ascii String.

(** [length] is the length of a list; that of a string is [String.length]. *)
#[local] Abbreviation length := List.length.

Local Open Scope string_scope.
Local Open Scope list_scope.
Local Open Scope Z_scope.

#[local] Arguments String.append : simpl nomatch.

(** Closes a decidable closed goal by evaluating its decision procedure. *)
Ltac by_evaluation := apply (bool_decide_unpack _); vm_compute; exact I.

(** ** Python built-ins used by the source *)

Module Py.

(** [s.split(sep, maxsplit)] for a one-character separator.  Python always
    returns at least one piece, so the result is the first piece together
    with the list of the remaining ones.  [maxsplit = None] is Python's
    default (no bound on the number of splits). *)
Fixpoint split (sep : ascii) (maxsplit : option nat) (s : string)
  : string * list string :=
  match s with
  | EmptyString => (EmptyString, [])
  | String c rest =>
      if Ascii.eqb c sep && negb (bool_decide (maxsplit = Some 0%nat)) then
        let '(piece, pieces) := split sep (Nat.pred <$> maxsplit) rest in
        (EmptyString, piece :: pieces)
      else
        let '(piece, pieces) := split sep maxsplit rest in
        (String c piece, pieces)
  end.

(** [s.endswith(suffix)]: [s] is [suffix], or its tail ends with it. *)
Fixpoint endswith (s suffix : string) : bool :=
  String.eqb s suffix ||
  match s with
  | EmptyString => false
  | String _ rest => endswith rest suffix
  end.

(** [s.removesuffix(suffix)]: [s] without its final [suffix], and [s]
    itself when it does not end with it. *)
Fixpoint removesuffix (s suffix : string) : string :=
  if String.eqb s suffix then EmptyString
  else match s with
       | EmptyString => EmptyString
       | String c rest => String c (removesuffix rest suffix)
       end.

(** [x or d] for [x : int | None]: [None] and [0] are falsy. *)
Definition or_int (x : option Z) (d : Z) : Z :=
  match x with
  | Some v => if bool_decide (v = 0) then d else v
  | None => d
  end.

(** An argument typed [tuple[str, ...] | str]. *)
Inductive str_or_tuple :=
| Str (s : string)
| Tuple (items : list string).

(** [if isinstance(x, str): x = (x,)] *)
Definition as_tuple (x : str_or_tuple) : list string :=
  match x with
  | Str s => [s]
  | Tuple items => items
  end.

End Py.

(** ** Data model *)

Module Endpoint.
Record t := mk {
  path : string;
  name : string;
  exclude : list string;
  headers : list (string * string)
}.
End Endpoint.

Module TestCategory.
Record t := mk {
  name : string;
  endpoints : list Endpoint.t;
  frameworks : list string
}.
End TestCategory.

(** [TestSpec] and [FrameworkSpec] are declared in [asgi_bench/types.py];
    their fields are the keyword arguments with which [make_spec] builds
    them. *)
Module TestSpec.
Record t := mk {
  path : string;
  endpoint_mode : string;
  benchmark_mode : string;
  category : string;
  name : string;
  headers : list (string * string);
  warmup_time : option Z;
  time_limit : option Z;
  request_limit : option Z;
  rate_limit : option Z;
  slug_name : string;
  is_supported : bool
}.
End TestSpec.

(** A [pathlib.Path] yielded by [iterdir]: its final component and the
    answer of the file system to [is_file()]. *)
Module Path.
Record t := mk {
  name : string;
  is_file : bool
}.
End Path.

Module FrameworkSpec.
Record t := mk {
  name : string;
  version : option string;
  path : Path.t;
  tests : list TestSpec.t
}.
End FrameworkSpec.

(** The directory [Path.cwd() / "frameworks"]. *)
Inductive Directory :=
| Unreadable
| Listing (entries : list Path.t).

(** [dir.iterdir()], in the order the file system yields the entries. *)
Definition iterdir (dir : Directory) : option (list Path.t) :=
  match dir with
  | Unreadable => None
  | Listing entries => Some entries
  end.

#[global] Instance Endpoint_eq_dec : EqDecision Endpoint.t.
Proof. solve_decision. Defined.
#[global] Instance TestCategory_eq_dec : EqDecision TestCategory.t.
Proof. solve_decision. Defined.
#[global] Instance TestSpec_eq_dec : EqDecision TestSpec.t.
Proof. solve_decision. Defined.
#[global] Instance Path_eq_dec : EqDecision Path.t.
Proof. solve_decision. Defined.
#[global] Instance FrameworkSpec_eq_dec : EqDecision FrameworkSpec.t.
Proof. solve_decision. Defined.

(** ** The static catalogue *)

(** Default of [Endpoint.exclude] and [Endpoint.headers]: the empty list. *)
Definition endpoint (path name : string) : Endpoint.t :=
  Endpoint.mk path name [] [].

(** Default of [TestCategory.frameworks]. *)
Definition default_frameworks : list string :=
  ["starlite"; "starlette"; "fastapi"; "sanic"; "blacksheep"].

Definition TEST_CATEGORIES : list TestCategory.t := [
  TestCategory.mk "plaintext" [
    endpoint "plaintext-100B" "plaintext 100 bytes";
    endpoint "plaintext-1K" "plaintext 1 kB";
    endpoint "plaintext-10K" "plaintext 10 kB";
    endpoint "plaintext-100K" "plaintext 100 kB";
    endpoint "plaintext-500K" "plaintext 500 kB";
    endpoint "plaintext-1M" "plaintext 1 MB";
    endpoint "plaintext-5M" "plaintext 5 MB"
  ] default_frameworks;
  TestCategory.mk "json" [
    endpoint "json-1K" "json 1 kB";
    endpoint "json-10K" "json 10 kB";
    endpoint "json-100K" "json 100 kB";
    endpoint "json-500K" "json 500 kB";
    endpoint "json-1M" "json 1 MB";
    endpoint "json-5M" "json 5 MB"
  ] default_frameworks;
  TestCategory.mk "files" [
    endpoint "file-response-100B" "file response 100 bytes";
    endpoint "file-response-1K" "file response 1 kB";
    endpoint "file-response-10K" "file response 10 kB";
    endpoint "file-response-100K" "file response 100 kB";
    endpoint "file-response-500K" "file response 500 kB";
    endpoint "file-response-1M" "file response 1 MB";
    endpoint "file-response-5M" "file response 5 MB"
  ] default_frameworks;
  TestCategory.mk "params" [
    endpoint "no-params" "no params";
    endpoint "path-params/42" "path params";
    endpoint "query-param?first=42" "query params";
    endpoint "mixed-params/42?first=21" "mixed params"
  ] default_frameworks;
  TestCategory.mk "dynamic-response" [
    endpoint "response-headers" "response headers";
    endpoint "response-cookies" "response cookies"
  ] default_frameworks;
  TestCategory.mk "dependency-injection" [
    endpoint "dependencies-sync" "dependencies sync";
    Endpoint.mk "dependencies-async" "dependencies async"
                ["sanic"; "blacksheep"] [];
    Endpoint.mk "dependencies-mixed" "dependencies mixed"
                ["sanic"; "blacksheep"] []
  ] ["starlite"; "fastapi"; "sanic"; "blacksheep"];
  TestCategory.mk "serialization" [
    endpoint "serialize-pydantic-50" "serialize pydantic, 50 objects";
    endpoint "serialize-pydantic-100" "serialize pydantic, 100 objects";
    endpoint "serialize-pydantic-500" "serialize pydantic, 500 objects";
    endpoint "serialize-dataclasses-50" "serialize dataclasses, 50 objects";
    endpoint "serialize-dataclasses-100" "serialize dataclasses, 100 objects";
    endpoint "serialize-dataclasses-500" "serialize dataclasses, 500 objects"
  ] ["starlite"; "fastapi"]
].

(** [{c.name: c for c in TEST_CATEGORIES}]: a later entry of the same name
    would replace an earlier one. *)
Definition CATEGORIES_BY_NAME : gmap string TestCategory.t :=
  foldl (λ d c, <[TestCategory.name c := c]> d) ∅ TEST_CATEGORIES.

(** [tuple(CATEGORIES_BY_NAME.keys())]: the keys in insertion order, which
    for the catalogue (whose names are distinct) is the catalogue order. *)
Definition ENDPOINT_CATEGORIES : list string :=
  TestCategory.name <$> TEST_CATEGORIES.

(** ** make_spec *)

(** [name, *parts = framework.split("@", 1)]
    [version = parts[0] if parts else None] *)
Definition parse_framework (framework : string) : string * option string :=
  let '(name, parts) := Py.split "@" (Some 1%nat) framework in
  (name, head parts).

(** One turn of [for framework in frameworks]:
    [requested_frameworks[name].append(version)] on a [defaultdict(list)]. *)
Definition request_framework
    (requested_frameworks : gmap string (list (option string)))
    (framework : string) : gmap string (list (option string)) :=
  let '(name, version) := parse_framework framework in
  <[name := default [] (requested_frameworks !! name) ++ [version]]>
    requested_frameworks.

(** The element expression of the list comprehension. *)
Definition make_test_spec
    (framework_name : string)
    (warmup_time time_limit request_limit rate_limit : option Z)
    (benchmark_mode endpoint_mode : string)
    (category : TestCategory.t) (endpoint : Endpoint.t) : TestSpec.t :=
  {| TestSpec.path :=
       "/" +:+ endpoint_mode +:+ "-" +:+ Endpoint.path endpoint;
     TestSpec.endpoint_mode := endpoint_mode;
     TestSpec.benchmark_mode := benchmark_mode;
     TestSpec.category := TestCategory.name category;
     TestSpec.name := Endpoint.name endpoint;
     TestSpec.headers := Endpoint.headers endpoint;
     TestSpec.warmup_time := warmup_time;
     TestSpec.time_limit :=
       if String.eqb benchmark_mode "rps"
       then Some (Py.or_int time_limit 15) else None;
     TestSpec.request_limit :=
       if String.eqb benchmark_mode "latency"
       then Some (Py.or_int request_limit 1000) else None;
     TestSpec.rate_limit :=
       if String.eqb benchmark_mode "latency"
       then Some (Py.or_int rate_limit 20) else None;
     TestSpec.slug_name :=
       endpoint_mode +:+ "-"
       +:+ (Py.split "?" None (Endpoint.path endpoint)).1;
     TestSpec.is_supported :=
       bool_decide (framework_name ∈ TestCategory.frameworks category)
       && negb (bool_decide (framework_name ∈ Endpoint.exclude endpoint)) |}.

(** The list comprehension: four nested [for] clauses, leftmost outermost. *)
Definition make_test_specs
    (framework_name : string)
    (warmup_time time_limit request_limit rate_limit : option Z)
    (benchmark_modes endpoint_modes : list string)
    (selected_categories : list TestCategory.t) : list TestSpec.t :=
  benchmark_mode ← benchmark_modes;
  endpoint_mode ← endpoint_modes;
  category ← selected_categories;
  endpoint ← TestCategory.endpoints category;
  [make_test_spec framework_name warmup_time time_limit request_limit
     rate_limit benchmark_mode endpoint_mode category endpoint].

Definition make_spec
    (dir : Directory)
    (frameworks : list string)
    (endpoint_modes categories : Py.str_or_tuple)
    (warmup_time time_limit request_limit rate_limit : option Z)
    (benchmark_modes : Py.str_or_tuple) : option (list FrameworkSpec.t) :=
  let endpoint_modes := Py.as_tuple endpoint_modes in
  let categories := Py.as_tuple categories in
  let benchmark_modes := Py.as_tuple benchmark_modes in
  let selected_categories :=
    filter (λ c, TestCategory.name c ∈ categories) TEST_CATEGORIES in
  let requested_frameworks := foldl request_framework ∅ frameworks in
  paths ← iterdir dir;
  Some (foldl (λ framework_specs path,
    if Path.is_file path && Py.endswith (Path.name path) "_app.py" then
      let framework_name := Py.removesuffix (Path.name path) "_app.py" in
      if bool_decide (requested_frameworks !! framework_name = None)
      then framework_specs
      else
        foldl (λ framework_specs requested_version,
          let test_specs :=
            make_test_specs framework_name warmup_time time_limit
              request_limit rate_limit benchmark_modes endpoint_modes
              selected_categories in
          framework_specs ++
            [FrameworkSpec.mk framework_name requested_version path
               test_specs])
          framework_specs
          (default [] (requested_frameworks !! framework_name))
    else framework_specs) [] paths).

(** ** Notions of the specification

    The definitions below follow the words of the specification; the
    theorems compare them with the definitions taken from the source. *)

(** The text of [s] before its first [c] (all of [s] when [c] does not occur):
    "endpoint.path with everything from the first ? onward removed". *)
Fixpoint before_first (c : ascii) (s : string) : string :=
  match s with
  | EmptyString => EmptyString
  | String x rest =>
      if Ascii.eqb x c then EmptyString else String x (before_first c rest)
  end.

(** The suffix of [s] that starts at its first [c] (empty when [c] does not
    occur): the query-string suffix for [c = "?"]. *)
Fixpoint from_first (c : ascii) (s : string) : string :=
  match s with
  | EmptyString => EmptyString
  | String x rest => if Ascii.eqb x c then s else from_first c rest
  end.

(** [c] occurs in [s]. *)
Definition occurs (c : ascii) (s : string) : Prop :=
  c ∈ list_ascii_of_string s.

#[global] Instance occurs_dec c s : Decision (occurs c s).
Proof. unfold occurs. apply _. Defined.

(** A string without its first character: "the leading / dropped". *)
Definition drop_first (s : string) : string :=
  match s with
  | EmptyString => EmptyString
  | String _ rest => rest
  end.

(** "Group requested version strings by framework name, preserving
    duplicates": the versions of the requested strings whose name is [name],
    in the order of the request. *)
Definition versions_requested_for
    (name : string) (frameworks : list string) : list (option string) :=
  snd <$> filter (λ p, p.1 = name) (parse_framework <$> frameworks).

(** A directory entry is the adapter of framework [name]: a file called
    [<name>_app.py]. *)
Definition adapter_of (name : string) (path : Path.t) : Prop :=
  Path.is_file path = true ∧ Path.name path = name +:+ "_app.py".

#[global] Instance adapter_of_dec name path : Decision (adapter_of name path).
Proof. unfold adapter_of. apply _. Defined.

(** The default selection as the specification words it: "explicit override
    if given, else [d] when the benchmark mode is the one the limit belongs
    to, else unset". *)
Definition limit_as_specified
    (override : option Z) (d : Z) (mode_matches : bool) : option Z :=
  match override with
  | Some v => Some v
  | None => if mode_matches then Some d else None
  end.

(** The default selection as the source performs it: the limit is unset
    unless the benchmark mode is [mode]; in that mode it is the override when
    one is given and is not zero, and [d] otherwise. *)
Definition limit_by_mode
    (mode : string) (d : Z) (override : option Z)
    (benchmark_mode : string) (limit : option Z) : Prop :=
  (benchmark_mode ≠ mode → limit = None) ∧
  (benchmark_mode = mode →
   ∀ v, override = Some v → v ≠ 0 → limit = Some v) ∧
  (benchmark_mode = mode →
   override = None ∨ override = Some 0 → limit = Some d).

(** The three limits of a TestSpec as the specification states them. *)
Definition limits_as_specified
    (time_limit request_limit rate_limit : option Z) (t : TestSpec.t) : Prop :=
  TestSpec.time_limit t =
    limit_as_specified time_limit 15
      (String.eqb (TestSpec.benchmark_mode t) "rps") ∧
  TestSpec.request_limit t =
    limit_as_specified request_limit 1000
      (String.eqb (TestSpec.benchmark_mode t) "latency") ∧
  TestSpec.rate_limit t =
    limit_as_specified rate_limit 20
      (String.eqb (TestSpec.benchmark_mode t) "latency").

(** The (category, endpoint) pairs of a list of categories, categories in
    list order and endpoints in declared order. *)
Definition cells (categories : list TestCategory.t)
  : list (TestCategory.t * Endpoint.t) :=
  c ← categories; pair c <$> TestCategory.endpoints c.

(** The order of the TestSpecs of one FrameworkSpec, as the specification
    states it: the categories [selected] are those of the catalogue whose
    name was requested, in the order of the catalogue; the list is the full
    cross-product, so that the TestSpec of benchmark mode number [b],
    endpoint mode number [m] and (category, endpoint) pair number [k] stands
    at position [(b * #endpoint_modes + m) * #pairs + k]. *)
Definition cross_product_order
    (requested_categories benchmark_modes endpoint_modes : list string)
    (make : string → string → TestCategory.t → Endpoint.t → TestSpec.t)
    (tests : list TestSpec.t) : Prop :=
  ∃ selected,
    selected `sublist_of` TEST_CATEGORIES ∧
    (∀ c, c ∈ selected ↔
          c ∈ TEST_CATEGORIES ∧ TestCategory.name c ∈ requested_categories) ∧
    length tests =
      (length benchmark_modes * length endpoint_modes
       * length (cells selected))%nat ∧
    ∀ b m k benchmark_mode endpoint_mode category endpoint,
      benchmark_modes !! b = Some benchmark_mode →
      endpoint_modes !! m = Some endpoint_mode →
      cells selected !! k = Some (category, endpoint) →
      tests !! ((b * length endpoint_modes + m) * length (cells selected)
                + k)%nat
      = Some (make benchmark_mode endpoint_mode category endpoint).

(** The order of the returned FrameworkSpecs, as the specification states
    it: of two FrameworkSpecs, the earlier belongs to an adapter file that
    the directory listing yields earlier, or both belong to the same adapter
    file and the earlier comes from a framework string requested earlier. *)
Definition discovery_order
    (entries : list Path.t) (frameworks : list string)
    (specs : list FrameworkSpec.t) : Prop :=
  ∀ i j fs1 fs2,
    (i < j)%nat → specs !! i = Some fs1 → specs !! j = Some fs2 →
    ∃ a b,
      entries !! a = Some (FrameworkSpec.path fs1) ∧
      entries !! b = Some (FrameworkSpec.path fs2) ∧
      adapter_of (FrameworkSpec.name fs1) (FrameworkSpec.path fs1) ∧
      adapter_of (FrameworkSpec.name fs2) (FrameworkSpec.path fs2) ∧
      ((a < b)%nat ∨
       (a = b ∧ FrameworkSpec.name fs1 = FrameworkSpec.name fs2 ∧
        ∃ p q s1 s2,
          (p < q)%nat ∧
          frameworks !! p = Some s1 ∧ frameworks !! q = Some s2 ∧
          parse_framework s1
            = (FrameworkSpec.name fs1, FrameworkSpec.version fs1) ∧
          parse_framework s2
            = (FrameworkSpec.name fs2, FrameworkSpec.version fs2))).

(** The requested strings whose name is [name], parsed, in the order of the
    request and with their repetitions. *)
Definition requested_of (name : string) (frameworks : list string)
  : list (string * option string) :=
  filter (λ p, p.1 = name) (parse_framework <$> frameworks).

(** What orders the FrameworkSpecs: name, version and adapter path. *)
Definition spec_key (fs : FrameworkSpec.t)
  : string * option string * Path.t :=
  (FrameworkSpec.name fs, FrameworkSpec.version fs, FrameworkSpec.path fs).

(** The returned list, block by block: it is the concatenation, in the order
    of the directory listing, of one block per directory entry; the block of
    the adapter file of a framework holds, position by position, the
    requested strings of that framework in the order of the request (each
    with its name, its version and the adapter path), and the block of any
    other entry is empty. *)
Definition discovery_blocks
    (entries : list Path.t) (frameworks : list string)
    (specs : list FrameworkSpec.t) : Prop :=
  ∃ blocks : list (list FrameworkSpec.t),
    specs = mjoin blocks ∧
    Forall2 (λ path block,
      (∀ name, adapter_of name path →
         spec_key <$> block
         = (λ p, (p.1, p.2, path)) <$> requested_of name frameworks) ∧
      ((∀ name, ¬ adapter_of name path) → block = []))
      entries blocks.

(** The FrameworkSpecs that one directory entry contributes: none unless it
    is an adapter file, else one per version requested for its framework, in
    the order of the request. *)
Definition specs_of_entry
    (frameworks : list string) (tests_for : string → list TestSpec.t)
    (path : Path.t) : list FrameworkSpec.t :=
  if Path.is_file path && Py.endswith (Path.name path) "_app.py" then
    let framework_name := Py.removesuffix (Path.name path) "_app.py" in
    (λ version,
       FrameworkSpec.mk framework_name version path (tests_for framework_name))
      <$> versions_requested_for framework_name frameworks
  else [].

(** ** A worked run

    A [frameworks] directory with two adapters, a stray file and a
    sub-directory; four requested framework strings, one of them without an
    adapter; one endpoint mode, one category, one benchmark mode. *)
Module Example.

Definition sanic_app : Path.t := Path.mk "sanic_app.py" true.
Definition starlite_app : Path.t := Path.mk "starlite_app.py" true.

Definition dir : Directory :=
  Listing [sanic_app; Path.mk "README.md" true;
           Path.mk "__pycache__" false; starlite_app].

Definition frameworks : list string :=
  ["sanic@23.3"; "starlite"; "quart"; "sanic@22.12"].

Definition test (path name slug_name : string) (is_supported : bool)
  : TestSpec.t :=
  TestSpec.mk path "sync" "rps" "dependency-injection" name [] None
    (Some 15) None None slug_name is_supported.

Definition sanic_async : TestSpec.t :=
  test "/sync-dependencies-async" "dependencies async"
    "sync-dependencies-async" false.

Definition starlite_async : TestSpec.t :=
  test "/sync-dependencies-async" "dependencies async"
    "sync-dependencies-async" true.

Definition sanic_tests : list TestSpec.t :=
  [test "/sync-dependencies-sync" "dependencies sync"
     "sync-dependencies-sync" true;
   sanic_async;
   test "/sync-dependencies-mixed" "dependencies mixed"
     "sync-dependencies-mixed" false].

Definition starlite_tests : list TestSpec.t :=
  [test "/sync-dependencies-sync" "dependencies sync"
     "sync-dependencies-sync" true;
   starlite_async;
   test "/sync-dependencies-mixed" "dependencies mixed"
     "sync-dependencies-mixed" true].

Definition sanic_23 : FrameworkSpec.t :=
  FrameworkSpec.mk "sanic" (Some "23.3") sanic_app sanic_tests.
Definition sanic_22 : FrameworkSpec.t :=
  FrameworkSpec.mk "sanic" (Some "22.12") sanic_app sanic_tests.
Definition starlite : FrameworkSpec.t :=
  FrameworkSpec.mk "starlite" None starlite_app starlite_tests.

(** What [make_spec] returns for the run. *)
Definition specs : list FrameworkSpec.t := [sanic_23; sanic_22; starlite].

(** A second run: framework [starlite], endpoint mode [async], category
    [dynamic-response], one benchmark mode and some overrides.  The
    TestSpecs it yields differ in the limits only. *)
Definition response_headers
    (benchmark_mode : string)
    (warmup_time time_limit request_limit rate_limit : option Z)
  : TestSpec.t :=
  TestSpec.mk "/async-response-headers" "async" benchmark_mode
    "dynamic-response" "response headers" [] warmup_time time_limit
    request_limit rate_limit "async-response-headers" true.

Definition response_cookies
    (benchmark_mode : string)
    (warmup_time time_limit request_limit rate_limit : option Z)
  : TestSpec.t :=
  TestSpec.mk "/async-response-cookies" "async" benchmark_mode
    "dynamic-response" "response cookies" [] warmup_time time_limit
    request_limit rate_limit "async-response-cookies" true.

Definition dynamic_tests
    (benchmark_mode : string)
    (warmup_time time_limit request_limit rate_limit : option Z)
  : list TestSpec.t :=
  [response_headers benchmark_mode warmup_time time_limit request_limit
     rate_limit;
   response_cookies benchmark_mode warmup_time time_limit request_limit
     rate_limit].

Definition dynamic_specs
    (benchmark_mode : string)
    (warmup_time time_limit request_limit rate_limit : option Z)
  : list FrameworkSpec.t :=
  [FrameworkSpec.mk "starlite" None starlite_app
     (dynamic_tests benchmark_mode warmup_time time_limit request_limit
        rate_limit)].


(** A third run: framework [starlite], endpoint mode [sync], category
    [params], benchmark mode [rps], no override. *)
Definition params_test (path name slug_name : string) : TestSpec.t :=
  TestSpec.mk path "sync" "rps" "params" name [] None (Some 15) None None
    slug_name true.

Definition query_param : TestSpec.t :=
  params_test "/sync-query-param?first=42" "query params"
    "sync-query-param".

Definition params_tests : list TestSpec.t :=
  [params_test "/sync-no-params" "no params" "sync-no-params";
   params_test "/sync-path-params/42" "path params" "sync-path-params/42";
   query_param;
   params_test "/sync-mixed-params/42?first=21" "mixed params"
     "sync-mixed-params/42"].

Definition params_spec : FrameworkSpec.t :=
  FrameworkSpec.mk "starlite" None starlite_app params_tests.

(** A fourth run: framework [starlite], endpoint modes [sync] and [async],
    benchmark modes [rps] and [latency], categories requested as
    [dependency-injection], [dynamic-response] (against the order of the
    catalogue), no override. *)
Definition rps_test (path endpoint_mode category name slug_name : string)
  : TestSpec.t :=
  TestSpec.mk path endpoint_mode "rps" category name [] None (Some 15)
    None None slug_name true.

Definition latency_test
    (path endpoint_mode category name slug_name : string) : TestSpec.t :=
  TestSpec.mk path endpoint_mode "latency" category name [] None None
    (Some 1000) (Some 20) slug_name true.

Definition matrix_tests : list TestSpec.t :=
  [rps_test "/sync-response-headers" "sync" "dynamic-response"
     "response headers" "sync-response-headers";
   rps_test "/sync-response-cookies" "sync" "dynamic-response"
     "response cookies" "sync-response-cookies";
   rps_test "/sync-dependencies-sync" "sync" "dependency-injection"
     "dependencies sync" "sync-dependencies-sync";
   rps_test "/sync-dependencies-async" "sync" "dependency-injection"
     "dependencies async" "sync-dependencies-async";
   rps_test "/sync-dependencies-mixed" "sync" "dependency-injection"
     "dependencies mixed" "sync-dependencies-mixed";
   rps_test "/async-response-headers" "async" "dynamic-response"
     "response headers" "async-response-headers";
   rps_test "/async-response-cookies" "async" "dynamic-response"
     "response cookies" "async-response-cookies";
   rps_test "/async-dependencies-sync" "async" "dependency-injection"
     "dependencies sync" "async-dependencies-sync";
   rps_test "/async-dependencies-async" "async" "dependency-injection"
     "dependencies async" "async-dependencies-async";
   rps_test "/async-dependencies-mixed" "async" "dependency-injection"
     "dependencies mixed" "async-dependencies-mixed";
   latency_test "/sync-response-headers" "sync" "dynamic-response"
     "response headers" "sync-response-headers";
   latency_test "/sync-response-cookies" "sync" "dynamic-response"
     "response cookies" "sync-response-cookies";
   latency_test "/sync-dependencies-sync" "sync" "dependency-injection"
     "dependencies sync" "sync-dependencies-sync";
   latency_test "/sync-dependencies-async" "sync" "dependency-injection"
     "dependencies async" "sync-dependencies-async";
   latency_test "/sync-dependencies-mixed" "sync" "dependency-injection"
     "dependencies mixed" "sync-dependencies-mixed";
   latency_test "/async-response-headers" "async" "dynamic-response"
     "response headers" "async-response-headers";
   latency_test "/async-response-cookies" "async" "dynamic-response"
     "response cookies" "async-response-cookies";
   latency_test "/async-dependencies-sync" "async" "dependency-injection"
     "dependencies sync" "async-dependencies-sync";
   latency_test "/async-dependencies-async" "async" "dependency-injection"
     "dependencies async" "async-dependencies-async";
   latency_test "/async-dependencies-mixed" "async" "dependency-injection"
     "dependencies mixed" "async-dependencies-mixed"].

Definition matrix_spec : FrameworkSpec.t :=
  FrameworkSpec.mk "starlite" None starlite_app matrix_tests.

End Example.

(** ** Reference data *)

(** The dictionary literal [FRAMEWORK_REPOS]: its items, in the order of the
    literal (the insertion order of the dictionary). *)
Definition FRAMEWORK_REPOS : list (string * string) := [
  ("starlite", "https://github.com/starlite-api/starlite.git");
  ("starlette", "https://github.com/encode/starlette.git");
  ("fastapi", "https://github.com/tiangolo/fastapi.git");
  ("sanic", "https://github.com/sanic-org/sanic.git");
  ("blacksheep", "https://github.com/Neoteroi/BlackSheep.git")
].

(** [tuple(FRAMEWORK_REPOS.keys())] *)
Definition FRAMEWORKS : list string := FRAMEWORK_REPOS.*1.

(** ** Further notions *)

(** The requested string of a name and a version: [name] alone, or
    [name@version]. *)
Definition framework_string (name : string) (version : option string)
  : string :=
  match version with
  | None => name
  | Some v => name +:+ "@" +:+ v
  end.

(** A TestSpec with its support flag blanked: what is left is the part that
    does not depend on the framework. *)
Definition without_support (t : TestSpec.t) : TestSpec.t :=
  {| TestSpec.path := TestSpec.path t;
     TestSpec.endpoint_mode := TestSpec.endpoint_mode t;
     TestSpec.benchmark_mode := TestSpec.benchmark_mode t;
     TestSpec.category := TestSpec.category t;
     TestSpec.name := TestSpec.name t;
     TestSpec.headers := TestSpec.headers t;
     TestSpec.warmup_time := TestSpec.warmup_time t;
     TestSpec.time_limit := TestSpec.time_limit t;
     TestSpec.request_limit := TestSpec.request_limit t;
     TestSpec.rate_limit := TestSpec.rate_limit t;
     TestSpec.slug_name := TestSpec.slug_name t;
     TestSpec.is_supported := false |}.

(** What identifies a TestSpec within one FrameworkSpec. *)
Definition test_key (t : TestSpec.t) : string * string * string :=
  (TestSpec.benchmark_mode t, TestSpec.endpoint_mode t, TestSpec.slug_name t).

(** The directory holds an adapter file of framework [name]. *)
Definition has_adapter (entries : list Path.t) (name : string) : Prop :=
  Exists (adapter_of name) entries.

#[global] Instance has_adapter_dec entries name :
  Decision (has_adapter entries name).
Proof. unfold has_adapter. apply _. Defined.

(** ** The process state

    For what holds of repeated invocations, [make_spec] is embedded a second
    time, as a program on the heap of the Python process.  The mutable
    containers of the source (every [list], and the [defaultdict]) are
    objects of the heap, named by their location, so that two names of one
    list are one location: a TestSpec built from an endpoint holds the very
    list of headers of that endpoint.  Strings, [None], tuples and paths
    cannot be changed and are plain values.  The source never assigns to an
    attribute of a dataclass instance, so an instance is the record of its
    fields, in which a list-valued field holds the location of the list. *)

Definition loc := positive.

Inductive val :=
| VNone
| VStr (s : string)
| VHeader (key value : string)
| VEndpoint (path name : string) (exclude headers : loc)
| VTestCategory (name : string) (endpoints : loc) (frameworks : list string)
| VTestSpec (path endpoint_mode benchmark_mode category name : string)
    (headers : loc)
    (warmup_time time_limit request_limit rate_limit : option Z)
    (slug_name : string) (is_supported : bool)
| VFrameworkSpec (name : string) (version : val) (path : Path.t) (tests : loc).

#[global] Instance val_eq_dec : EqDecision val.
Proof. solve_decision. Defined.

(** An object of the heap: a [list], or the [defaultdict(list)], whose
    values are lists. *)
Inductive cell :=
| CList (items : list val)
| CDict (items : gmap string loc).

Abbreviation heap := (gmap loc cell).

(** A statement: it runs in a heap and raises ([None]) or returns a value
    and the heap it leaves. *)
Definition M (A : Type) : Type := heap → option (A * heap).

#[global] Instance M_ret : MRet M := λ A x h, Some (x, h).
#[global] Instance M_bind : MBind M := λ A B f m h,
  match m h with
  | Some (x, h') => f x h'
  | None => None
  end.

(** A new object, at a location that names no object yet. *)
Definition alloc (c : cell) : M loc := λ h,
  let l := fresh (dom h) in Some (l, <[l := c]> h).

(** The items of the list at [l]. *)
Definition items_of (h : heap) (l : loc) : option (list val) :=
  match h !! l with
  | Some (CList items) => Some items
  | _ => None
  end.

(** An expression that only reads the heap. *)
Definition read {A} (expression : heap → option A) : M A := λ h,
  x ← expression h; Some (x, h).

(** [l.append(v)] *)
Definition list_append (l : loc) (v : val) : M unit := λ h,
  match h !! l with
  | Some (CList items) => Some ((), <[l := CList (items ++ [v])]> h)
  | _ => None
  end.

(** [key in d], [d.get(key, default)] and [d[key] = l] *)
Definition dict_contains (d : loc) (key : string) : M bool := λ h,
  match h !! d with
  | Some (CDict items) => Some (bool_decide (is_Some (items !! key)), h)
  | _ => None
  end.

Definition dict_get (d : loc) (key : string) (fallback : loc) : M loc := λ h,
  match h !! d with
  | Some (CDict items) => Some (default fallback (items !! key), h)
  | _ => None
  end.

Definition dict_setitem (d : loc) (key : string) (l : loc) : M unit := λ h,
  match h !! d with
  | Some (CDict items) => Some ((), <[d := CDict (<[key := l]> items)]> h)
  | _ => None
  end.

(** [d[key]] on a [defaultdict(list)]: a missing key is first given a new
    empty list. *)
Definition defaultdict_getitem (d : loc) (key : string) : M loc := λ h,
  match h !! d with
  | Some (CDict items) =>
      match items !! key with
      | Some l => Some (l, h)
      | None => (l ← alloc (CList []); dict_setitem d key l;; mret l) h
      end
  | _ => None
  end.

(** [for x in items: body] *)
Fixpoint for_each {A} (items : list A) (body : A → M unit) : M unit :=
  match items with
  | [] => mret ()
  | x :: rest => body x;; for_each rest body
  end.

(** The list that nested [for] clauses of a comprehension build. *)
Definition for_yield {A B} (items : list A) (clause : A → option (list B))
  : option (list B) :=
  mjoin <$> mapM clause items.

(** [str | None] as a value, and back. *)
Definition val_of_version (version : option string) : val :=
  match version with
  | None => VNone
  | Some s => VStr s
  end.

(** [[c for c in TEST_CATEGORIES if c.name in categories]] *)
Definition selected_values (categories : list string) (catalogue : loc)
    (h : heap) : option (list val) :=
  items ← items_of h catalogue;
  for_yield items (λ c,
    match c with
    | VTestCategory name _ _ =>
        Some (if bool_decide (name ∈ categories) then [c] else [])
    | _ => None
    end).

(** The element expression of the comprehension, on the objects. *)
Definition test_spec_value
    (framework_name : string)
    (warmup_time time_limit request_limit rate_limit : option Z)
    (benchmark_mode endpoint_mode : string)
    (h : heap) (category endpoint : val) : option val :=
  match category, endpoint with
  | VTestCategory category_name _ category_frameworks,
    VEndpoint endpoint_path endpoint_name exclude headers =>
      is_supported ←
        (if bool_decide (framework_name ∈ category_frameworks) then
           excluded ← items_of h exclude;
           Some (negb (bool_decide (VStr framework_name ∈ excluded)))
         else Some false);
      Some (VTestSpec
              ("/" +:+ endpoint_mode +:+ "-" +:+ endpoint_path)
              endpoint_mode benchmark_mode category_name endpoint_name
              headers warmup_time
              (if String.eqb benchmark_mode "rps"
               then Some (Py.or_int time_limit 15) else None)
              (if String.eqb benchmark_mode "latency"
               then Some (Py.or_int request_limit 1000) else None)
              (if String.eqb benchmark_mode "latency"
               then Some (Py.or_int rate_limit 20) else None)
              (endpoint_mode +:+ "-" +:+ (Py.split "?" None endpoint_path).1)
              is_supported)
  | _, _ => None
  end.

(** The list comprehension, on the objects. *)
Definition test_spec_values
    (framework_name : string)
    (warmup_time time_limit request_limit rate_limit : option Z)
    (benchmark_modes endpoint_modes : list string)
    (selected_categories : loc) (h : heap) : option (list val) :=
  for_yield benchmark_modes (λ benchmark_mode,
    for_yield endpoint_modes (λ endpoint_mode,
      categories ← items_of h selected_categories;
      for_yield categories (λ category,
        match category with
        | VTestCategory _ endpoints _ =>
            endpoints ← items_of h endpoints;
            mapM (test_spec_value framework_name warmup_time time_limit
                    request_limit rate_limit benchmark_mode endpoint_mode
                    h category) endpoints
        | _ => None
        end))).

(** [make_spec], statement by statement, in the heap of the process.
    [catalogue] is the location of the list [TEST_CATEGORIES]; the result is
    the location of the list [framework_specs]. *)
Definition make_spec_in_heap
    (catalogue : loc) (dir : Directory)
    (frameworks : list string)
    (endpoint_modes categories : Py.str_or_tuple)
    (warmup_time time_limit request_limit rate_limit : option Z)
    (benchmark_modes : Py.str_or_tuple) : M loc :=
  let endpoint_modes := Py.as_tuple endpoint_modes in
  let categories := Py.as_tuple categories in
  let benchmark_modes := Py.as_tuple benchmark_modes in
  selected ← read (selected_values categories catalogue);
  selected_categories ← alloc (CList selected);
  framework_specs ← alloc (CList []);
  requested_frameworks ← alloc (CDict ∅);
  for_each frameworks (λ framework,
    let '(name, version) := parse_framework framework in
    versions ← defaultdict_getitem requested_frameworks name;
    list_append versions (val_of_version version));;
  paths ← read (λ _, iterdir dir);
  for_each paths (λ path,
    if Path.is_file path && Py.endswith (Path.name path) "_app.py" then
      let framework_name := Py.removesuffix (Path.name path) "_app.py" in
      present ← dict_contains requested_frameworks framework_name;
      if negb present then mret ()
      else
        empty ← alloc (CList []);
        versions ← dict_get requested_frameworks framework_name empty;
        requested_versions ← read (λ h, items_of h versions);
        for_each requested_versions (λ requested_version,
          tests ← read (test_spec_values framework_name warmup_time
                          time_limit request_limit rate_limit
                          benchmark_modes endpoint_modes
                          selected_categories);
          test_specs ← alloc (CList tests);
          list_append framework_specs
            (VFrameworkSpec framework_name requested_version path
               test_specs))
    else mret ());;
  mret framework_specs.

(** *** Reading structures off the heap *)

Definition decode_list {A} (h : heap) (decode : val → option A) (l : loc)
  : option (list A) :=
  items ← items_of h l; mapM decode items.

Definition decode_str (v : val) : option string :=
  match v with VStr s => Some s | _ => None end.

Definition decode_version (v : val) : option (option string) :=
  match v with
  | VNone => Some None
  | VStr s => Some (Some s)
  | _ => None
  end.

Definition decode_header (v : val) : option (string * string) :=
  match v with VHeader key value => Some (key, value) | _ => None end.

Definition decode_endpoint (h : heap) (v : val) : option Endpoint.t :=
  match v with
  | VEndpoint path name exclude headers =>
      exclude ← decode_list h decode_str exclude;
      headers ← decode_list h decode_header headers;
      Some (Endpoint.mk path name exclude headers)
  | _ => None
  end.

Definition decode_category (h : heap) (v : val) : option TestCategory.t :=
  match v with
  | VTestCategory name endpoints frameworks =>
      endpoints ← decode_list h (decode_endpoint h) endpoints;
      Some (TestCategory.mk name endpoints frameworks)
  | _ => None
  end.

Definition decode_test_spec (h : heap) (v : val) : option TestSpec.t :=
  match v with
  | VTestSpec path endpoint_mode benchmark_mode category name headers
      warmup_time time_limit request_limit rate_limit slug_name
      is_supported =>
      headers ← decode_list h decode_header headers;
      Some (TestSpec.mk path endpoint_mode benchmark_mode category name
              headers warmup_time time_limit request_limit rate_limit
              slug_name is_supported)
  | _ => None
  end.

Definition decode_framework_spec (h : heap) (v : val)
  : option FrameworkSpec.t :=
  match v with
  | VFrameworkSpec name version path tests =>
      version ← decode_version version;
      tests ← decode_list h (decode_test_spec h) tests;
      Some (FrameworkSpec.mk name version path tests)
  | _ => None
  end.

(** The catalogue, and a result of [make_spec], as structures. *)
Definition decode_catalogue (h : heap) (catalogue : loc)
  : option (list TestCategory.t) :=
  decode_list h (decode_category h) catalogue.

Definition decode_specs (h : heap) (framework_specs : loc)
  : option (list FrameworkSpec.t) :=
  decode_list h (decode_framework_spec h) framework_specs.

(** *** The module at import *)

Definition new_endpoint (e : Endpoint.t) : M val :=
  exclude ← alloc (CList (VStr <$> Endpoint.exclude e));
  headers ← alloc (CList ((λ kv, VHeader kv.1 kv.2) <$> Endpoint.headers e));
  mret (VEndpoint (Endpoint.path e) (Endpoint.name e) exclude headers).

Definition new_category (c : TestCategory.t) : M val :=
  endpoints ← mapM new_endpoint (TestCategory.endpoints c);
  endpoints ← alloc (CList endpoints);
  mret (VTestCategory (TestCategory.name c) endpoints
          (TestCategory.frameworks c)).

(** [TEST_CATEGORIES = [...]] *)
Definition new_catalogue : M loc :=
  categories ← mapM new_category TEST_CATEGORIES;
  alloc (CList categories).

(** The process that has just imported the module, nothing else: its heap,
    and the location of [TEST_CATEGORIES] in it. *)
Definition imported_catalogue : loc :=
  default 1%positive (fst <$> new_catalogue ∅).

Definition imported_heap : heap := default ∅ (snd <$> new_catalogue ∅).

(** *** What holds while [make_spec] runs *)

(** After the strings [requested], in a run that started from [base]: no
    object of [base] has changed, and the dictionary at [d] (a new object)
    maps each requested name to a new list of its own, which holds the
    versions requested for the name so far. *)
Definition request_recorded (base : heap) (d : loc)
    (requested : list string) (h : heap) : Prop :=
  base ⊆ h ∧ base !! d = None ∧
  ∃ items,
    h !! d = Some (CDict items) ∧
    (∀ name l,
       items !! name = Some l →
       base !! l = None ∧ l ≠ d ∧
       h !! l = Some (CList (val_of_version
                               <$> versions_requested_for name requested))) ∧
    (∀ name, items !! name = None →
             versions_requested_for name requested = []) ∧
    (∀ name name' l,
       items !! name = Some l → items !! name' = Some l → name = name').

(** After some directory entries, in a run whose heap was [start] when the
    loop over the entries began: apart from the list [framework_specs]
    itself, no object of [start] has changed, and the list holds the
    FrameworkSpecs [specs], whose parts are objects other than the list. *)
Definition specs_collected (start : heap) (framework_specs : loc)
    (specs : list FrameworkSpec.t) (h : heap) : Prop :=
  delete framework_specs start ⊆ delete framework_specs h ∧
  ∃ items,
    h !! framework_specs = Some (CList items) ∧
    Forall2 (λ v fs,
               decode_framework_spec (delete framework_specs h) v = Some fs)
      items specs.

(** ** Strings *)

Lemma before_from_first c s : before_first c s +:+ from_first c s = s.
Proof.
  induction s as [|x rest IH]; simpl; [done|].
  destruct (Ascii.eqb x c); simpl; [done|]. by rewrite IH.
Qed.

Lemma before_first_free c s : ¬ occurs c (before_first c s).
Proof.
  unfold occurs. induction s as [|x rest IH]; simpl.
  - by intros ?%elem_of_nil.
  - destruct (Ascii.eqb_spec x c) as [->|Hne]; simpl.
    + by intros ?%elem_of_nil.
    + intros [->|?]%elem_of_cons; [done|]. by apply IH.
Qed.

Lemma from_first_head c s :
  from_first c s = EmptyString ∨ ∃ q, from_first c s = String c q.
Proof.
  induction s as [|x rest IH]; simpl; [by left|].
  destruct (Ascii.eqb_spec x c) as [->|Hne]; [right; eauto|done].
Qed.

Lemma before_first_app c a s :
  ¬ occurs c a → before_first c (a +:+ s) = a +:+ before_first c s.
Proof.
  unfold occurs. induction a as [|x rest IH]; simpl; [done|].
  intros Hfree. destruct (Ascii.eqb_spec x c) as [->|Hne].
  - exfalso. apply Hfree. by left.
  - f_equal. apply IH. intros ?. apply Hfree. by right.
Qed.

Lemma split_unlimited_fst sep s :
  (Py.split sep None s).1 = before_first sep s.
Proof.
  induction s as [|x rest IH]; simpl; [done|].
  destruct (Ascii.eqb x sep); simpl.
  - by destruct (Py.split sep None rest).
  - destruct (Py.split sep None rest); simpl in *. by rewrite IH.
Qed.

Lemma split_zero sep s : Py.split sep (Some 0%nat) s = (s, []).
Proof.
  induction s as [|x rest IH]; simpl; [done|].
  rewrite andb_false_r. by rewrite IH.
Qed.

Lemma split_absent sep m s : ¬ occurs sep s → Py.split sep m s = (s, []).
Proof.
  unfold occurs. induction s as [|x rest IH]; simpl; [done|].
  intros Hfree. destruct (Ascii.eqb_spec x sep) as [->|Hne].
  - exfalso. apply Hfree. by left.
  - simpl. rewrite IH; [done|]. intros ?. apply Hfree. by right.
Qed.

Lemma split_once sep a b :
  ¬ occurs sep a →
  Py.split sep (Some 1%nat) (a +:+ String sep b) = (a, [b]).
Proof.
  unfold occurs. induction a as [|x rest IH]; simpl.
  - intros _. rewrite Ascii.eqb_refl. simpl. by rewrite split_zero.
  - intros Hfree. destruct (Ascii.eqb_spec x sep) as [->|Hne].
    + exfalso. apply Hfree. by left.
    + simpl. rewrite IH; [done|]. intros ?. apply Hfree. by right.
Qed.

Lemma split_once_fst sep s :
  (Py.split sep (Some 1%nat) s).1 = before_first sep s.
Proof.
  induction s as [|x rest IH]; simpl; [done|].
  destruct (Ascii.eqb x sep); simpl.
  - by rewrite split_zero.
  - destruct (Py.split sep (Some 1%nat) rest); simpl in *. by rewrite IH.
Qed.

Lemma split_once_snd sep s :
  (Py.split sep (Some 1%nat) s).2 =
  match from_first sep s with
  | EmptyString => []
  | String _ version => [version]
  end.
Proof.
  induction s as [|x rest IH]; simpl; [done|].
  destruct (Ascii.eqb x sep); simpl.
  - by rewrite split_zero.
  - destruct (Py.split sep (Some 1%nat) rest); simpl in *. by rewrite IH.
Qed.

Lemma length_append (a b : string) :
  String.length (a +:+ b) = (String.length a + String.length b)%nat.
Proof. induction a as [|x rest IH]; simpl; [done|]. by rewrite IH. Qed.

Lemma cons_append_ne x (p suffix : string) : String x (p +:+ suffix) ≠ suffix.
Proof.
  intros Heq. apply (f_equal String.length) in Heq. simpl in Heq.
  rewrite length_append in Heq. lia.
Qed.

Lemma endswith_append p suffix : Py.endswith (p +:+ suffix) suffix = true.
Proof.
  induction p as [|x rest IH]; cbn [String.append Py.endswith].
  - destruct suffix as [|y suffix]; [done|].
    cbn [Py.endswith]. by rewrite String.eqb_refl.
  - rewrite IH. by rewrite orb_true_r.
Qed.

Lemma removesuffix_append p suffix : Py.removesuffix (p +:+ suffix) suffix = p.
Proof.
  induction p as [|x rest IH]; cbn [String.append Py.removesuffix].
  - destruct suffix as [|y suffix]; [done|].
    cbn [Py.removesuffix]. by rewrite String.eqb_refl.
  - destruct (String.eqb_spec (String x (rest +:+ suffix)) suffix) as [Heq|_].
    + by apply cons_append_ne in Heq.
    + by rewrite IH.
Qed.

Lemma endswith_removesuffix s suffix :
  Py.endswith s suffix = true → s = Py.removesuffix s suffix +:+ suffix.
Proof.
  induction s as [|x rest IH].
  - simpl. destruct suffix; [done|]. simpl. discriminate.
  - intros Hends. cbn [Py.endswith Py.removesuffix] in *.
    destruct (String.eqb_spec (String x rest) suffix) as [<-|Hne]; [done|].
    simpl in *. f_equal. by apply IH.
Qed.

(** A file name is an adapter name of [name] exactly when the source's test
    accepts it and strips it to [name]. *)
Lemma adapter_of_spec name path :
  adapter_of name path ↔
  Path.is_file path && Py.endswith (Path.name path) "_app.py" = true ∧
  Py.removesuffix (Path.name path) "_app.py" = name.
Proof.
  unfold adapter_of. split.
  - intros [-> ->]. by rewrite endswith_append, removesuffix_append.
  - intros [[-> Hends]%andb_true_iff <-]. split; [done|].
    by apply endswith_removesuffix.
Qed.

(** ** Loops as list operations *)

Lemma foldl_snoc_fmap {A B} (f : A → B) (acc : list B) (l : list A) :
  foldl (λ acc x, acc ++ [f x]) acc l = acc ++ (f <$> l).
Proof.
  revert acc. induction l as [|x l IH]; intros acc; simpl.
  - by rewrite app_nil_r.
  - rewrite IH. by rewrite <- app_assoc.
Qed.

Lemma foldl_app_bind {A B} (step : list B → A → list B) (g : A → list B)
    (acc : list B) (l : list A) :
  (∀ acc x, step acc x = acc ++ g x) →
  foldl step acc l = acc ++ (l ≫= g).
Proof.
  intros Hstep. revert acc. induction l as [|x l IH]; intros acc; simpl.
  - by rewrite app_nil_r.
  - rewrite IH, Hstep. by rewrite <- app_assoc.
Qed.

(** ** The dictionary of requested versions *)

Lemma versions_requested_for_cons name framework frameworks :
  versions_requested_for name (framework :: frameworks) =
  (if decide ((parse_framework framework).1 = name)
   then [(parse_framework framework).2] else [])
  ++ versions_requested_for name frameworks.
Proof.
  unfold versions_requested_for. rewrite fmap_cons, filter_cons.
  by destruct (decide _).
Qed.

Lemma request_framework_lookup m framework name :
  request_framework m framework !! name =
  if decide ((parse_framework framework).1 = name)
  then Some (default [] (m !! name) ++ [(parse_framework framework).2])
  else m !! name.
Proof.
  unfold request_framework. destruct (parse_framework framework) as [n v].
  simpl. destruct (decide (n = name)) as [->|Hne].
  - by rewrite lookup_insert_eq.
  - by rewrite lookup_insert_ne.
Qed.

Lemma requested_frameworks_lookup_from m frameworks name :
  foldl request_framework m frameworks !! name =
  match versions_requested_for name frameworks with
  | [] => m !! name
  | versions => Some (default [] (m !! name) ++ versions)
  end.
Proof.
  revert m. induction frameworks as [|framework frameworks IH]; intros m.
  - done.
  - simpl. rewrite IH, versions_requested_for_cons, request_framework_lookup.
    destruct (decide _) as [Heq|Hne]; simpl.
    + destruct (versions_requested_for name frameworks); [done|].
      by rewrite <- app_assoc.
    + done.
Qed.

Lemma requested_frameworks_lookup frameworks name :
  foldl request_framework ∅ frameworks !! name =
  match versions_requested_for name frameworks with
  | [] => None
  | versions => Some versions
  end.
Proof.
  rewrite requested_frameworks_lookup_from, lookup_empty.
  by destruct (versions_requested_for name frameworks).
Qed.

(** ** The shape of the result *)

Lemma make_spec_listing entries frameworks endpoint_modes categories
    warmup_time time_limit request_limit rate_limit benchmark_modes :
  make_spec (Listing entries) frameworks endpoint_modes categories
    warmup_time time_limit request_limit rate_limit benchmark_modes =
  Some (entries ≫= specs_of_entry frameworks (λ framework_name,
    make_test_specs framework_name warmup_time time_limit request_limit
      rate_limit (Py.as_tuple benchmark_modes) (Py.as_tuple endpoint_modes)
      (filter (λ c, TestCategory.name c ∈ Py.as_tuple categories)
         TEST_CATEGORIES))).
Proof.
  unfold make_spec. simpl. f_equal.
  match goal with
  | |- _ = mbind ?g _ => rewrite (foldl_app_bind _ g); [done|]
  end.
  intros acc path. unfold specs_of_entry.
  destruct (Path.is_file path && Py.endswith (Path.name path) "_app.py");
    [|by rewrite app_nil_r].
  cbv zeta. rewrite requested_frameworks_lookup.
  destruct (versions_requested_for _ frameworks) as [|v versions] eqn:Hv.
  - rewrite bool_decide_eq_true_2 by done. by rewrite app_nil_r.
  - rewrite bool_decide_eq_false_2 by done. simpl default.
    by rewrite foldl_snoc_fmap.
Qed.

Lemma make_spec_unreadable frameworks endpoint_modes categories
    warmup_time time_limit request_limit rate_limit benchmark_modes :
  make_spec Unreadable frameworks endpoint_modes categories
    warmup_time time_limit request_limit rate_limit benchmark_modes = None.
Proof. done. Qed.

Lemma specs_of_entry_elem frameworks tests_for path fs :
  fs ∈ specs_of_entry frameworks tests_for path ↔
  adapter_of (FrameworkSpec.name fs) path ∧
  FrameworkSpec.version fs
    ∈ versions_requested_for (FrameworkSpec.name fs) frameworks ∧
  FrameworkSpec.path fs = path ∧
  FrameworkSpec.tests fs = tests_for (FrameworkSpec.name fs).
Proof.
  rewrite adapter_of_spec. unfold specs_of_entry. split.
  - destruct (Path.is_file path && Py.endswith _ _); [|by intros ?%elem_of_nil].
    intros (v & -> & Hv)%list_elem_of_fmap. by simpl.
  - intros ([-> Hname] & Hv & Hpath & Htests). rewrite Hname.
    apply list_elem_of_fmap. exists (FrameworkSpec.version fs).
    split; [|done]. destruct fs; simpl in *. by subst.
Qed.

Lemma make_test_specs_elem framework_name warmup_time time_limit
    request_limit rate_limit benchmark_modes endpoint_modes selected t :
  t ∈ make_test_specs framework_name warmup_time time_limit request_limit
        rate_limit benchmark_modes endpoint_modes selected ↔
  ∃ benchmark_mode endpoint_mode category endpoint,
    benchmark_mode ∈ benchmark_modes ∧ endpoint_mode ∈ endpoint_modes ∧
    category ∈ selected ∧ endpoint ∈ TestCategory.endpoints category ∧
    t = make_test_spec framework_name warmup_time time_limit request_limit
          rate_limit benchmark_mode endpoint_mode category endpoint.
Proof.
  unfold make_test_specs. split.
  - intros (bm & (em & (c & (e & ->%list_elem_of_singleton & He)
      %list_elem_of_bind & Hc)%list_elem_of_bind & Hem)
      %list_elem_of_bind & Hbm)%list_elem_of_bind.
    by exists bm, em, c, e.
  - intros (bm & em & c & e & Hbm & Hem & Hc & He & ->).
    apply list_elem_of_bind. exists bm. split; [|done].
    apply list_elem_of_bind. exists em. split; [|done].
    apply list_elem_of_bind. exists c. split; [|done].
    apply list_elem_of_bind. exists e. split; [|done].
    by apply list_elem_of_singleton.
Qed.

Section Produced.
Context (dir : Directory) (frameworks : list string)
        (endpoint_modes categories : Py.str_or_tuple)
        (warmup_time time_limit request_limit rate_limit : option Z)
        (benchmark_modes : Py.str_or_tuple)
        (specs : list FrameworkSpec.t).
Hypothesis Hrun :
  make_spec dir frameworks endpoint_modes categories warmup_time time_limit
    request_limit rate_limit benchmark_modes = Some specs.

Lemma make_spec_readable : ∃ entries, dir = Listing entries.
Proof. destruct dir; [done|eauto]. Qed.

(** Every FrameworkSpec carries the cross-product built for its name. *)
Lemma make_spec_tests fs :
  fs ∈ specs →
  FrameworkSpec.tests fs =
  make_test_specs (FrameworkSpec.name fs) warmup_time time_limit
    request_limit rate_limit (Py.as_tuple benchmark_modes)
    (Py.as_tuple endpoint_modes)
    (filter (λ c, TestCategory.name c ∈ Py.as_tuple categories)
       TEST_CATEGORIES).
Proof.
  destruct make_spec_readable as [entries ->].
  rewrite make_spec_listing in Hrun. injection Hrun as <-.
  intros (path & Hfs & _)%list_elem_of_bind.
  by apply specs_of_entry_elem in Hfs as (_ & _ & _ & ->).
Qed.

(** Every TestSpec comes from a requested benchmark mode, a requested
    endpoint mode, a requested category of the catalogue and one of its
    endpoints. *)
Lemma make_spec_produced fs t :
  fs ∈ specs → t ∈ FrameworkSpec.tests fs →
  ∃ benchmark_mode endpoint_mode category endpoint,
    benchmark_mode ∈ Py.as_tuple benchmark_modes ∧
    endpoint_mode ∈ Py.as_tuple endpoint_modes ∧
    category ∈ TEST_CATEGORIES ∧
    TestCategory.name category ∈ Py.as_tuple categories ∧
    endpoint ∈ TestCategory.endpoints category ∧
    t = make_test_spec (FrameworkSpec.name fs) warmup_time time_limit
          request_limit rate_limit benchmark_mode endpoint_mode
          category endpoint.
Proof.
  intros Hfs. rewrite (make_spec_tests fs Hfs).
  intros (bm & em & c & e & Hbm & Hem & [Hsel Hc]%list_elem_of_filter
          & He & ->)%make_test_specs_elem.
  by exists bm, em, c, e.
Qed.
End Produced.

(** ** Facts of the catalogue *)

Lemma catalogue_index :
  Forall (λ c, CATEGORIES_BY_NAME !! TestCategory.name c = Some c)
    TEST_CATEGORIES.
Proof. by_evaluation. Qed.

Lemma catalogue_names_distinct : NoDup ENDPOINT_CATEGORIES.
Proof. by_evaluation. Qed.

(** [ENDPOINT_CATEGORIES] holds the keys of [CATEGORIES_BY_NAME]. *)
Lemma categories_by_name_keys name :
  is_Some (CATEGORIES_BY_NAME !! name) ↔ name ∈ ENDPOINT_CATEGORIES.
Proof.
  unfold CATEGORIES_BY_NAME, ENDPOINT_CATEGORIES.
  assert (∀ (l : list TestCategory.t) (d : gmap string TestCategory.t),
            is_Some (foldl (λ d c, <[TestCategory.name c := c]> d) d l
                     !! name) ↔
            is_Some (d !! name) ∨ name ∈ TestCategory.name <$> l) as Hkeys.
  { induction l as [|c l IH]; intros d; simpl.
    - rewrite elem_of_nil. tauto.
    - rewrite IH, lookup_insert_is_Some, elem_of_cons.
      destruct (decide (TestCategory.name c = name)) as [<-|Hne].
      + split; intros _; [right|left]; by left.
      + split; [intros [[?|[_ ?]]|?]|intros [?|[?|?]]]; try done; auto. }
  rewrite Hkeys, lookup_empty. split; [|by right].
  by intros [[? [=]]|?].
Qed.

Lemma catalogue_endpoint_names_distinct :
  Forall (λ c, NoDup (Endpoint.name <$> TestCategory.endpoints c))
    TEST_CATEGORIES.
Proof. by_evaluation. Qed.

Lemma catalogue_dependency_injection :
  Forall (λ c,
    TestCategory.name c = "dependency-injection" →
    TestCategory.frameworks c = ["starlite"; "fastapi"; "sanic"; "blacksheep"] ∧
    Forall (λ e,
      Endpoint.path e = "dependencies-async" →
      Endpoint.exclude e = ["sanic"; "blacksheep"])
      (TestCategory.endpoints c))
    TEST_CATEGORIES.
Proof. by_evaluation. Qed.

Lemma endpoint_by_name c e e' :
  c ∈ TEST_CATEGORIES →
  e ∈ TestCategory.endpoints c → e' ∈ TestCategory.endpoints c →
  Endpoint.name e = Endpoint.name e' → e = e'.
Proof.
  intros Hc He He' Hname.
  pose proof (proj1 (Forall_forall _ _) catalogue_endpoint_names_distinct c Hc)
    as Hnodup.
  apply list_elem_of_lookup in He as [i Hi].
  apply list_elem_of_lookup in He' as [j Hj].
  assert (i = j) as ->; [|congruence].
  eapply NoDup_lookup; [exact Hnodup| |].
  - by rewrite list_lookup_fmap, Hi.
  - by rewrite list_lookup_fmap, Hj, Hname.
Qed.

(** ** Support flags *)

Lemma make_test_spec_is_supported framework_name warmup_time time_limit
    request_limit rate_limit benchmark_mode endpoint_mode category endpoint :
  TestSpec.is_supported
    (make_test_spec framework_name warmup_time time_limit request_limit
       rate_limit benchmark_mode endpoint_mode category endpoint) = true ↔
  framework_name ∈ TestCategory.frameworks category ∧
  framework_name ∉ Endpoint.exclude endpoint.
Proof.
  simpl. rewrite andb_true_iff, negb_true_iff.
  by rewrite bool_decide_eq_true, bool_decide_eq_false.
Qed.

(** C1.  In every TestSpec that [make_spec] produces, [is_supported] is true
    exactly when the name of the owning framework is in the framework set of
    the TestSpec's category (the catalogue entry of that name) and is not in
    the exclusion list of the endpoint the TestSpec was built from.  For the
    endpoint [dependencies-async] of category [dependency-injection] the flag
    is false for framework [sanic] and true for framework [starlite]. *)
Theorem is_supported_iff dir frameworks endpoint_modes categories
    warmup_time time_limit request_limit rate_limit benchmark_modes
    specs fs t :
  make_spec dir frameworks endpoint_modes categories warmup_time time_limit
    request_limit rate_limit benchmark_modes = Some specs →
  fs ∈ specs → t ∈ FrameworkSpec.tests fs →
  ∃ c,
    CATEGORIES_BY_NAME !! TestSpec.category t = Some c ∧
    (∃ e, e ∈ TestCategory.endpoints c ∧
          Endpoint.name e = TestSpec.name t) ∧
    ∀ e,
      e ∈ TestCategory.endpoints c → Endpoint.name e = TestSpec.name t →
      (TestSpec.is_supported t = true ↔
         FrameworkSpec.name fs ∈ TestCategory.frameworks c ∧
         FrameworkSpec.name fs ∉ Endpoint.exclude e) ∧
      (TestCategory.name c = "dependency-injection" →
       Endpoint.path e = "dependencies-async" →
       (FrameworkSpec.name fs = "sanic" → TestSpec.is_supported t = false) ∧
       (FrameworkSpec.name fs = "starlite" → TestSpec.is_supported t = true)).
Proof.
  intros Hrun Hfs Ht.
  destruct (make_spec_produced _ _ _ _ _ _ _ _ _ _ Hrun fs t Hfs Ht)
    as (bm & em & c & e0 & _ & _ & Hc & _ & He0 & ->).
  exists c. split.
  { exact (proj1 (Forall_forall _ _) catalogue_index c Hc). }
  split; [by exists e0|].
  intros e He Hname.
  assert (e = e0) as -> by (by apply (endpoint_by_name c)).
  split; [apply make_test_spec_is_supported|].
  intros Hcat Hpath.
  destruct (proj1 (Forall_forall _ _) catalogue_dependency_injection c Hc Hcat)
    as [Hfws Hexcl].
  pose proof (proj1 (Forall_forall _ _) Hexcl e0 He0 Hpath) as Hex.
  simpl. rewrite Hfws, Hex. by split; intros ->.
Qed.

Lemma example_run :
  make_spec Example.dir Example.frameworks (Py.Str "sync")
    (Py.Str "dependency-injection") None None None None (Py.Str "rps")
  = Some Example.specs.
Proof. vm_compute. reflexivity. Qed.

Lemma is_supported_iff_witness :
  (∃ c,
    CATEGORIES_BY_NAME !! TestSpec.category Example.sanic_async = Some c ∧
    (∃ e, e ∈ TestCategory.endpoints c ∧
          Endpoint.name e = TestSpec.name Example.sanic_async) ∧
    ∀ e,
      e ∈ TestCategory.endpoints c →
      Endpoint.name e = TestSpec.name Example.sanic_async →
      (TestSpec.is_supported Example.sanic_async = true ↔
         "sanic" ∈ TestCategory.frameworks c ∧ "sanic" ∉ Endpoint.exclude e) ∧
      (TestCategory.name c = "dependency-injection" →
       Endpoint.path e = "dependencies-async" →
       ("sanic" = "sanic" → TestSpec.is_supported Example.sanic_async = false) ∧
       ("sanic" = "starlite" →
        TestSpec.is_supported Example.sanic_async = true))).
Proof.
  apply (is_supported_iff Example.dir Example.frameworks (Py.Str "sync")
           (Py.Str "dependency-injection") None None None None (Py.Str "rps")
           Example.specs Example.sanic_23 Example.sanic_async).
  - vm_compute. reflexivity.
  - apply (bool_decide_unpack _). vm_compute. exact I.
  - apply (bool_decide_unpack _). vm_compute. exact I.
Defined.

(** ** Limits *)

Lemma limit_by_mode_intro mode d override benchmark_mode :
  limit_by_mode mode d override benchmark_mode
    (if String.eqb benchmark_mode mode
     then Some (Py.or_int override d) else None).
Proof.
  unfold limit_by_mode, Py.or_int.
  destruct (String.eqb_spec benchmark_mode mode) as [->|Hne].
  - split; [done|]. split.
    + intros _ v -> Hv. by rewrite bool_decide_eq_false_2.
    + by intros _ [->| ->].
  - by repeat split.
Qed.

(** C2 (amended).  In every TestSpec that [make_spec] produces, [time_limit]
    is unset unless the benchmark mode is [rps]; for [rps] it is the override
    when one is given and is not zero, else 15.  [request_limit] and
    [rate_limit] are unset unless the benchmark mode is [latency]; for
    [latency] they are the override when given and not zero, else 1000 and 20
    respectively. *)
Theorem limits_by_benchmark_mode dir frameworks endpoint_modes categories
    warmup_time time_limit request_limit rate_limit benchmark_modes
    specs fs t :
  make_spec dir frameworks endpoint_modes categories warmup_time time_limit
    request_limit rate_limit benchmark_modes = Some specs →
  fs ∈ specs → t ∈ FrameworkSpec.tests fs →
  limit_by_mode "rps" 15 time_limit
    (TestSpec.benchmark_mode t) (TestSpec.time_limit t) ∧
  limit_by_mode "latency" 1000 request_limit
    (TestSpec.benchmark_mode t) (TestSpec.request_limit t) ∧
  limit_by_mode "latency" 20 rate_limit
    (TestSpec.benchmark_mode t) (TestSpec.rate_limit t).
Proof.
  intros Hrun Hfs Ht.
  destruct (make_spec_produced _ _ _ _ _ _ _ _ _ _ Hrun fs t Hfs Ht)
    as (bm & em & c & e & _ & _ & _ & _ & _ & ->).
  split; [|split]; apply limit_by_mode_intro.
Qed.

(** In benchmark mode [latency] an explicit [time_limit] of 30 is dropped,
    and in benchmark mode [rps] an explicit [time_limit] of 0 becomes 15:
    neither TestSpec has the limits that C2 states. *)
Lemma limits_as_specified_counterexample :
  (make_spec Example.dir ["starlite"] (Py.Str "async")
     (Py.Str "dynamic-response") None (Some 30) None None (Py.Str "latency")
   = Some (Example.dynamic_specs "latency" None None (Some 1000) (Some 20)) ∧
   Forall (λ t, ¬ limits_as_specified (Some 30) None None t)
     (Example.dynamic_tests "latency" None None (Some 1000) (Some 20))) ∧
  (make_spec Example.dir ["starlite"] (Py.Str "async")
     (Py.Str "dynamic-response") None (Some 0) None None (Py.Str "rps")
   = Some (Example.dynamic_specs "rps" None (Some 15) None None) ∧
   Forall (λ t, ¬ limits_as_specified (Some 0) None None t)
     (Example.dynamic_tests "rps" None (Some 15) None None)).
Proof.
  split; (split; [vm_compute; reflexivity|]);
    repeat constructor; intros [Htime _]; vm_compute in Htime; discriminate.
Qed.

Lemma limits_by_benchmark_mode_witness :
  let t := Example.response_headers "latency" (Some 5) None (Some 1000)
             (Some 7) in
  limit_by_mode "rps" 15 (Some 30)
    (TestSpec.benchmark_mode t) (TestSpec.time_limit t) ∧
  limit_by_mode "latency" 1000 (Some 0)
    (TestSpec.benchmark_mode t) (TestSpec.request_limit t) ∧
  limit_by_mode "latency" 20 (Some 7)
    (TestSpec.benchmark_mode t) (TestSpec.rate_limit t).
Proof.
  apply (limits_by_benchmark_mode Example.dir ["starlite"] (Py.Str "async")
           (Py.Str "dynamic-response") (Some 5) (Some 30) (Some 0) (Some 7)
           (Py.Str "latency")
           (Example.dynamic_specs "latency" (Some 5) None (Some 1000) (Some 7))
           (FrameworkSpec.mk "starlite" None Example.starlite_app
              (Example.dynamic_tests "latency" (Some 5) None (Some 1000)
                 (Some 7)))).
  - vm_compute. reflexivity.
  - apply (bool_decide_unpack _). vm_compute. exact I.
  - apply (bool_decide_unpack _). vm_compute. exact I.
Defined.

(** C10.  A zero override is treated as an absent one: the call returns what
    it returns without the override, so that with [time_limit = 0] the
    TestSpecs of benchmark mode [rps] have [time_limit = 15], and with
    [request_limit = 0] or [rate_limit = 0] the TestSpecs of benchmark mode
    [latency] have [request_limit = 1000] and [rate_limit = 20]. *)
Theorem zero_override_is_absent dir frameworks endpoint_modes categories
    warmup_time time_limit request_limit rate_limit benchmark_modes
    specs fs t :
  make_spec dir frameworks endpoint_modes categories warmup_time time_limit
    request_limit rate_limit benchmark_modes = Some specs →
  fs ∈ specs → t ∈ FrameworkSpec.tests fs →
  TestSpec.benchmark_mode t ∈ Py.as_tuple benchmark_modes ∧
  (time_limit = Some 0 →
   (TestSpec.benchmark_mode t = "rps" → TestSpec.time_limit t = Some 15) ∧
   make_spec dir frameworks endpoint_modes categories warmup_time None
     request_limit rate_limit benchmark_modes = Some specs) ∧
  (request_limit = Some 0 →
   (TestSpec.benchmark_mode t = "latency" →
    TestSpec.request_limit t = Some 1000) ∧
   make_spec dir frameworks endpoint_modes categories warmup_time time_limit
     None rate_limit benchmark_modes = Some specs) ∧
  (rate_limit = Some 0 →
   (TestSpec.benchmark_mode t = "latency" →
    TestSpec.rate_limit t = Some 20) ∧
   make_spec dir frameworks endpoint_modes categories warmup_time time_limit
     request_limit None benchmark_modes = Some specs).
Proof.
  intros Hrun Hfs Ht.
  destruct (make_spec_produced _ _ _ _ _ _ _ _ _ _ Hrun fs t Hfs Ht)
    as (bm & em & c & e & Hbm & _ & _ & _ & _ & ->).
  split; [done|].
  cbn [make_test_spec TestSpec.benchmark_mode TestSpec.time_limit
       TestSpec.request_limit TestSpec.rate_limit].
  split; [|split]; intros ->; (split; [by intros ->|exact Hrun]).
Qed.

Lemma zero_override_is_absent_witness :
  let t := Example.response_headers "latency" None None (Some 1000)
             (Some 20) in
  let call := make_spec Example.dir ["starlite"] (Py.Str "async")
                (Py.Str "dynamic-response") None in
  TestSpec.benchmark_mode t ∈ ["latency"] ∧
  (Some 0 = Some 0 →
   (TestSpec.benchmark_mode t = "rps" → TestSpec.time_limit t = Some 15) ∧
   call None (Some 0) (Some 0) (Py.Str "latency")
   = Some (Example.dynamic_specs "latency" None None (Some 1000) (Some 20))) ∧
  (Some 0 = Some 0 →
   (TestSpec.benchmark_mode t = "latency" →
    TestSpec.request_limit t = Some 1000) ∧
   call (Some 0) None (Some 0) (Py.Str "latency")
   = Some (Example.dynamic_specs "latency" None None (Some 1000) (Some 20))) ∧
  (Some 0 = Some 0 →
   (TestSpec.benchmark_mode t = "latency" →
    TestSpec.rate_limit t = Some 20) ∧
   call (Some 0) (Some 0) None (Py.Str "latency")
   = Some (Example.dynamic_specs "latency" None None (Some 1000) (Some 20))).
Proof.
  apply (zero_override_is_absent Example.dir ["starlite"] (Py.Str "async")
           (Py.Str "dynamic-response") None (Some 0) (Some 0) (Some 0)
           (Py.Str "latency")
           (Example.dynamic_specs "latency" None None (Some 1000) (Some 20))
           (FrameworkSpec.mk "starlite" None Example.starlite_app
              (Example.dynamic_tests "latency" None None (Some 1000)
                 (Some 20)))).
  - vm_compute. reflexivity.
  - apply (bool_decide_unpack _). vm_compute. exact I.
  - apply (bool_decide_unpack _). vm_compute. exact I.
Defined.

(** ** Paths and slugs *)

Lemma make_test_spec_path framework_name warmup_time time_limit request_limit
    rate_limit benchmark_mode endpoint_mode category endpoint :
  let t := make_test_spec framework_name warmup_time time_limit request_limit
             rate_limit benchmark_mode endpoint_mode category endpoint in
  TestSpec.path t =
    "/" +:+ TestSpec.slug_name t +:+ from_first "?" (Endpoint.path endpoint).
Proof.
  simpl. rewrite split_unlimited_fst. f_equal.
  rewrite <- (before_from_first "?" (Endpoint.path endpoint)) at 1.
  generalize (before_first "?" (Endpoint.path endpoint)) as slug.
  generalize (from_first "?" (Endpoint.path endpoint)) as query.
  intros query slug. induction endpoint_mode as [|x mode IH]; simpl; [done|].
  by rewrite IH.
Qed.

(** C3.  In every TestSpec that [make_spec] produces, [path] is ["/"], the
    endpoint mode, ["-"] and the path of the endpoint it was built from, and
    [slug_name] is the endpoint mode, ["-"] and the endpoint path up to its
    first ["?"]; so [path] is ["/"], [slug_name] and the query-string suffix
    of the endpoint path.  Endpoint path [query-param?first=42] in endpoint
    mode [sync] gives path [/sync-query-param?first=42] and slug
    [sync-query-param]. *)
Theorem path_and_slug_name dir frameworks endpoint_modes categories
    warmup_time time_limit request_limit rate_limit benchmark_modes
    specs fs t :
  make_spec dir frameworks endpoint_modes categories warmup_time time_limit
    request_limit rate_limit benchmark_modes = Some specs →
  fs ∈ specs → t ∈ FrameworkSpec.tests fs →
  ∃ c,
    CATEGORIES_BY_NAME !! TestSpec.category t = Some c ∧
    (∃ e, e ∈ TestCategory.endpoints c ∧
          Endpoint.name e = TestSpec.name t) ∧
    ∀ e,
      e ∈ TestCategory.endpoints c → Endpoint.name e = TestSpec.name t →
      TestSpec.path t =
        "/" +:+ TestSpec.endpoint_mode t +:+ "-" +:+ Endpoint.path e ∧
      TestSpec.slug_name t =
        TestSpec.endpoint_mode t +:+ "-" +:+
        before_first "?" (Endpoint.path e) ∧
      TestSpec.path t =
        "/" +:+ TestSpec.slug_name t +:+ from_first "?" (Endpoint.path e) ∧
      (Endpoint.path e = "query-param?first=42" →
       TestSpec.endpoint_mode t = "sync" →
       TestSpec.path t = "/sync-query-param?first=42" ∧
       TestSpec.slug_name t = "sync-query-param").
Proof.
  intros Hrun Hfs Ht.
  destruct (make_spec_produced _ _ _ _ _ _ _ _ _ _ Hrun fs t Hfs Ht)
    as (bm & em & c & e0 & _ & _ & Hc & _ & He0 & ->).
  exists c. split.
  { exact (proj1 (Forall_forall _ _) catalogue_index c Hc). }
  split; [by exists e0|].
  intros e He Hname.
  assert (e = e0) as -> by (by apply (endpoint_by_name c)).
  split; [done|]. split; [simpl; by rewrite split_unlimited_fst|].
  split; [apply make_test_spec_path|].
  simpl. by intros -> ->.
Qed.

Lemma path_and_slug_name_witness :
  let t := Example.query_param in
  ∃ c,
    CATEGORIES_BY_NAME !! TestSpec.category t = Some c ∧
    (∃ e, e ∈ TestCategory.endpoints c ∧
          Endpoint.name e = TestSpec.name t) ∧
    ∀ e,
      e ∈ TestCategory.endpoints c → Endpoint.name e = TestSpec.name t →
      TestSpec.path t =
        "/" +:+ TestSpec.endpoint_mode t +:+ "-" +:+ Endpoint.path e ∧
      TestSpec.slug_name t =
        TestSpec.endpoint_mode t +:+ "-" +:+
        before_first "?" (Endpoint.path e) ∧
      TestSpec.path t =
        "/" +:+ TestSpec.slug_name t +:+ from_first "?" (Endpoint.path e) ∧
      (Endpoint.path e = "query-param?first=42" →
       TestSpec.endpoint_mode t = "sync" →
       TestSpec.path t = "/sync-query-param?first=42" ∧
       TestSpec.slug_name t = "sync-query-param").
Proof.
  apply (path_and_slug_name Example.dir Example.frameworks (Py.Str "sync")
           (Py.Str "params") None None None None (Py.Str "rps")
           [FrameworkSpec.mk "sanic" (Some "23.3") Example.sanic_app
              Example.params_tests;
            FrameworkSpec.mk "sanic" (Some "22.12") Example.sanic_app
              Example.params_tests;
            Example.params_spec]
           Example.params_spec Example.query_param).
  - vm_compute. reflexivity.
  - apply (bool_decide_unpack _). vm_compute. exact I.
  - apply (bool_decide_unpack _). vm_compute. exact I.
Defined.

(** When the endpoint mode contains no ["?"], the slug is the path without
    its leading ["/"], cut at the first ["?"]. *)
Lemma slug_name_of_path dir frameworks endpoint_modes categories
    warmup_time time_limit request_limit rate_limit benchmark_modes
    specs fs t :
  make_spec dir frameworks endpoint_modes categories warmup_time time_limit
    request_limit rate_limit benchmark_modes = Some specs →
  fs ∈ specs → t ∈ FrameworkSpec.tests fs →
  ¬ occurs "?" (TestSpec.endpoint_mode t) →
  TestSpec.slug_name t = before_first "?" (drop_first (TestSpec.path t)).
Proof.
  intros Hrun Hfs Ht.
  destruct (make_spec_produced _ _ _ _ _ _ _ _ _ _ Hrun fs t Hfs Ht)
    as (bm & em & c & e & _ & _ & _ & _ & _ & ->).
  simpl. intros Hmode.
  rewrite split_unlimited_fst, before_first_app by done. done.
Qed.

(** An endpoint mode that contains a ["?"] stays whole in the slug, where
    cutting the path at its first ["?"] would cut inside the mode. *)
Lemma slug_name_keeps_endpoint_mode :
  Forall (λ t,
    TestSpec.slug_name t = "a?b-response-headers" ∧
    before_first "?" (drop_first (TestSpec.path t)) = "a")
    (take 1 (make_test_specs "starlite" None None None None ["rps"] ["a?b"]
               (filter (λ c, TestCategory.name c ∈ ["dynamic-response"])
                  TEST_CATEGORIES))).
Proof. by_evaluation. Qed.

(** ** Positions in nested loops *)

Section Bind.
Context {A B : Type} (f : A → list B).

Lemma length_bind_uniform (n : nat) (l : list A) :
  (∀ x, length (f x) = n) → length (l ≫= f) = (length l * n)%nat.
Proof.
  intros Hn. induction l as [|x l IH]; [done|].
  rewrite bind_cons, length_app, Hn, IH. simpl. lia.
Qed.

(** With blocks of one length [n], element [j] of block [i] is at position
    [i * n + j]. *)
Lemma lookup_bind_uniform (n : nat) (l : list A) (i j : nat) x :
  (∀ x, length (f x) = n) → l !! i = Some x → (j < n)%nat →
  (l ≫= f) !! (i * n + j)%nat = f x !! j.
Proof.
  intros Hn. revert i. induction l as [|y l IH]; intros i Hi Hj; [done|].
  rewrite bind_cons. destruct i as [|i]; simpl in Hi.
  - injection Hi as ->. rewrite lookup_app_l; [done|]. rewrite Hn. lia.
  - rewrite lookup_app_r by (rewrite Hn; lia). rewrite Hn.
    replace (S i * n + j - n)%nat with (i * n + j)%nat by lia.
    by apply IH.
Qed.

Lemma lookup_bind_Some (l : list A) (i : nat) y :
  (l ≫= f) !! i = Some y →
  ∃ a x k, l !! a = Some x ∧ f x !! k = Some y.
Proof.
  intros Hy. assert (y ∈ l ≫= f) as (x & Hx & Hl)%list_elem_of_bind.
  { apply list_elem_of_lookup. eauto. }
  apply list_elem_of_lookup in Hx as [k Hk].
  apply list_elem_of_lookup in Hl as [a Ha]. eauto.
Qed.

(** Of two elements, the earlier comes from an earlier block, or from the
    same block at an earlier place. *)
Lemma lookup_bind_order (l : list A) (i j : nat) y1 y2 :
  (i < j)%nat → (l ≫= f) !! i = Some y1 → (l ≫= f) !! j = Some y2 →
  ∃ a b x1 x2 k1 k2,
    l !! a = Some x1 ∧ l !! b = Some x2 ∧
    f x1 !! k1 = Some y1 ∧ f x2 !! k2 = Some y2 ∧
    ((a < b)%nat ∨ (a = b ∧ (k1 < k2)%nat)).
Proof.
  revert i j. induction l as [|x l IH]; intros i j Hij; [done|].
  rewrite bind_cons. intros Hi Hj.
  destruct (decide (i < length (f x))%nat) as [Hin|Hout].
  - rewrite lookup_app_l in Hi by done.
    destruct (decide (j < length (f x))%nat) as [Hjn|Hjout].
    + rewrite lookup_app_l in Hj by done.
      exists 0%nat, 0%nat, x, x, i, j. eauto 10.
    + rewrite lookup_app_r in Hj by lia.
      apply lookup_bind_Some in Hj as (b & x2 & k2 & Hb & Hk2).
      exists 0%nat, (S b), x, x2, i, k2.
      repeat split; [done..|]. left. lia.
  - rewrite lookup_app_r in Hi by lia. rewrite lookup_app_r in Hj by lia.
    destruct (IH (i - length (f x))%nat (j - length (f x))%nat)
      as (a & b & x1 & x2 & k1 & k2 & Ha & Hb & Hk1 & Hk2 & Hord);
      [lia|done..|].
    exists (S a), (S b), x1, x2, k1, k2.
    repeat split; [done..|]. lia.
Qed.
End Bind.

Lemma filter_as_bind {A} (P : A → Prop) `{!∀ x, Decision (P x)} (l : list A) :
  filter P l = l ≫= (λ x, if decide (P x) then [x] else []).
Proof.
  induction l as [|x l IH]; [done|].
  rewrite filter_cons, bind_cons, <- IH. by destruct (decide (P x)).
Qed.

(** [filter] keeps the order of the list. *)
Lemma lookup_filter_order {A} (P : A → Prop) `{!∀ x, Decision (P x)}
    (l : list A) (i j : nat) y1 y2 :
  (i < j)%nat → filter P l !! i = Some y1 → filter P l !! j = Some y2 →
  ∃ p q, (p < q)%nat ∧ l !! p = Some y1 ∧ l !! q = Some y2.
Proof.
  rewrite filter_as_bind. intros Hij Hi Hj.
  destruct (lookup_bind_order _ l i j y1 y2 Hij Hi Hj)
    as (a & b & x1 & x2 & k1 & k2 & Ha & Hb & Hk1 & Hk2 & Hord).
  assert (∀ x k y, (if decide (P x) then [x] else []) !! k = Some y →
                   k = 0%nat ∧ y = x) as Hone.
  { intros x k y. destruct (decide (P x)); [|done].
    by intros [-> ->]%list_lookup_singleton_Some. }
  apply Hone in Hk1 as [-> ->]. apply Hone in Hk2 as [-> ->].
  exists a, b. split; [lia|done].
Qed.

(** ** The order of the TestSpecs *)

Lemma bind_singleton_fmap {A B} (g : A → B) (l : list A) :
  l ≫= (λ x, [g x]) = g <$> l.
Proof. induction l as [|x l IH]; [done|]. by rewrite bind_cons, IH. Qed.

Lemma cells_cons c categories :
  cells (c :: categories) =
  (pair c <$> TestCategory.endpoints c) ++ cells categories.
Proof. unfold cells. by rewrite bind_cons. Qed.

Section Order.
Context (framework_name : string)
        (warmup_time time_limit request_limit rate_limit : option Z).

(** The two inner [for] clauses run through the pairs of [cells]. *)
Lemma inner_loops benchmark_mode endpoint_mode selected :
  (category ← selected;
   endpoint ← TestCategory.endpoints category;
   [make_test_spec framework_name warmup_time time_limit request_limit
      rate_limit benchmark_mode endpoint_mode category endpoint]) =
  (λ ce, make_test_spec framework_name warmup_time time_limit request_limit
           rate_limit benchmark_mode endpoint_mode ce.1 ce.2)
    <$> cells selected.
Proof.
  induction selected as [|c selected IH]; [done|].
  rewrite bind_cons, cells_cons, fmap_app, IH. f_equal.
  rewrite bind_singleton_fmap, <- list_fmap_compose. done.
Qed.

Lemma make_test_specs_loops benchmark_modes endpoint_modes selected :
  make_test_specs framework_name warmup_time time_limit request_limit
    rate_limit benchmark_modes endpoint_modes selected =
  (benchmark_mode ← benchmark_modes;
   endpoint_mode ← endpoint_modes;
   (λ ce, make_test_spec framework_name warmup_time time_limit request_limit
            rate_limit benchmark_mode endpoint_mode ce.1 ce.2)
     <$> cells selected).
Proof.
  unfold make_test_specs. apply list_bind_ext; [|done]. intros bm.
  apply list_bind_ext; [|done]. intros em. apply inner_loops.
Qed.

Lemma make_test_specs_length benchmark_modes endpoint_modes selected :
  length (make_test_specs framework_name warmup_time time_limit
            request_limit rate_limit benchmark_modes endpoint_modes
            selected) =
  (length benchmark_modes * length endpoint_modes
   * length (cells selected))%nat.
Proof.
  rewrite make_test_specs_loops.
  rewrite (length_bind_uniform _
             (length endpoint_modes * length (cells selected))); [lia|].
  intros bm. apply length_bind_uniform. intros em. apply length_fmap.
Qed.

Lemma make_test_specs_lookup benchmark_modes endpoint_modes selected
    b m k benchmark_mode endpoint_mode category endpoint :
  benchmark_modes !! b = Some benchmark_mode →
  endpoint_modes !! m = Some endpoint_mode →
  cells selected !! k = Some (category, endpoint) →
  make_test_specs framework_name warmup_time time_limit request_limit
    rate_limit benchmark_modes endpoint_modes selected
  !! ((b * length endpoint_modes + m) * length (cells selected) + k)%nat
  = Some (make_test_spec framework_name warmup_time time_limit request_limit
            rate_limit benchmark_mode endpoint_mode category endpoint).
Proof.
  intros Hb Hm Hk. rewrite make_test_specs_loops.
  pose proof (lookup_lt_Some _ _ _ Hm) as Hmlt.
  pose proof (lookup_lt_Some _ _ _ Hk) as Hklt.
  set (n := length (cells selected)) in *.
  replace ((b * length endpoint_modes + m) * n + k)%nat
    with (b * (length endpoint_modes * n) + (m * n + k))%nat by lia.
  rewrite (lookup_bind_uniform _ (length endpoint_modes * n) _ b _
             benchmark_mode); [|  |done|nia].
  - rewrite (lookup_bind_uniform _ n _ m _ endpoint_mode);
      [|intros; apply length_fmap|done|done].
    by rewrite list_lookup_fmap, Hk.
  - intros bm. apply length_bind_uniform. intros em. apply length_fmap.
Qed.
End Order.

(** C4.  The TestSpecs of every FrameworkSpec are the full cross-product in
    the order benchmark mode, endpoint mode, category, endpoint: the selected
    categories stand in the order of the catalogue, whatever the order (or
    the repetitions) of the request, and the endpoints in the order their
    category declares them. *)
Theorem tests_in_cross_product_order dir frameworks endpoint_modes categories
    warmup_time time_limit request_limit rate_limit benchmark_modes
    specs fs :
  make_spec dir frameworks endpoint_modes categories warmup_time time_limit
    request_limit rate_limit benchmark_modes = Some specs →
  fs ∈ specs →
  cross_product_order (Py.as_tuple categories) (Py.as_tuple benchmark_modes)
    (Py.as_tuple endpoint_modes)
    (make_test_spec (FrameworkSpec.name fs) warmup_time time_limit
       request_limit rate_limit)
    (FrameworkSpec.tests fs) ∧
  ∀ categories',
    (∀ name, name ∈ Py.as_tuple categories' ↔ name ∈ Py.as_tuple categories) →
    make_spec dir frameworks endpoint_modes categories' warmup_time time_limit
      request_limit rate_limit benchmark_modes = Some specs.
Proof.
  intros Hrun Hfs. split.
  - rewrite (make_spec_tests _ _ _ _ _ _ _ _ _ _ Hrun fs Hfs).
    exists (filter (λ c, TestCategory.name c ∈ Py.as_tuple categories)
              TEST_CATEGORIES).
    split; [apply sublist_filter|].
    split; [intros c; rewrite list_elem_of_filter; tauto|].
    split; [apply make_test_specs_length|].
    intros. by apply make_test_specs_lookup.
  - intros categories' Hsame.
    destruct (make_spec_readable _ _ _ _ _ _ _ _ _ _ Hrun) as [entries ->].
    rewrite make_spec_listing in *. rewrite <- Hrun.
    by rewrite (list_filter_iff
                  (λ c, TestCategory.name c ∈ Py.as_tuple categories')
                  (λ c, TestCategory.name c ∈ Py.as_tuple categories)
                  TEST_CATEGORIES).
Qed.

Lemma example_matrix_run :
  make_spec Example.dir ["starlite"] (Py.Tuple ["sync"; "async"])
    (Py.Tuple ["dependency-injection"; "dynamic-response"])
    None None None None (Py.Tuple ["rps"; "latency"])
  = Some [Example.matrix_spec].
Proof. vm_compute. reflexivity. Qed.

Lemma tests_in_cross_product_order_witness :
  cross_product_order ["dependency-injection"; "dynamic-response"]
    ["rps"; "latency"] ["sync"; "async"]
    (make_test_spec "starlite" None None None None)
    Example.matrix_tests ∧
  ∀ categories',
    (∀ name, name ∈ Py.as_tuple categories' ↔
             name ∈ ["dependency-injection"; "dynamic-response"]) →
    make_spec Example.dir ["starlite"] (Py.Tuple ["sync"; "async"])
      categories' None None None None (Py.Tuple ["rps"; "latency"])
    = Some [Example.matrix_spec].
Proof.
  apply (tests_in_cross_product_order Example.dir ["starlite"]
           (Py.Tuple ["sync"; "async"])
           (Py.Tuple ["dependency-injection"; "dynamic-response"])
           None None None None (Py.Tuple ["rps"; "latency"])
           [Example.matrix_spec] Example.matrix_spec).
  - vm_compute. reflexivity.
  - apply (bool_decide_unpack _). vm_compute. exact I.
Defined.

(** ** The order of the FrameworkSpecs *)

Lemma versions_requested_for_lookup name frameworks k version :
  versions_requested_for name frameworks !! k = Some version ↔
  filter (λ p, p.1 = name) (parse_framework <$> frameworks) !! k
  = Some (name, version).
Proof.
  unfold versions_requested_for. rewrite list_lookup_fmap.
  destruct (filter _ _ !! k) as [[n v]|] eqn:Hk; simpl; [|done].
  assert (n = name) as ->.
  { apply list_elem_of_lookup_2, list_elem_of_filter in Hk. by destruct Hk. }
  split; congruence.
Qed.

(** The versions requested for one name stand in the order of the request. *)
Lemma versions_requested_for_order name frameworks k1 k2 v1 v2 :
  (k1 < k2)%nat →
  versions_requested_for name frameworks !! k1 = Some v1 →
  versions_requested_for name frameworks !! k2 = Some v2 →
  ∃ p q s1 s2,
    (p < q)%nat ∧ frameworks !! p = Some s1 ∧ frameworks !! q = Some s2 ∧
    parse_framework s1 = (name, v1) ∧ parse_framework s2 = (name, v2).
Proof.
  rewrite !versions_requested_for_lookup. intros Hlt H1 H2.
  destruct (lookup_filter_order _ _ _ _ _ _ Hlt H1 H2)
    as (p & q & Hpq & Hp & Hq).
  rewrite list_lookup_fmap in Hp, Hq.
  destruct (frameworks !! p) as [s1|] eqn:Hs1; [|done].
  destruct (frameworks !! q) as [s2|] eqn:Hs2; [|done].
  simpl in *. exists p, q, s1, s2. repeat split; congruence.
Qed.

Lemma specs_of_entry_lookup frameworks tests_for path k fs :
  specs_of_entry frameworks tests_for path !! k = Some fs →
  versions_requested_for (FrameworkSpec.name fs) frameworks !! k
  = Some (FrameworkSpec.version fs).
Proof.
  unfold specs_of_entry.
  destruct (Path.is_file path && Py.endswith _ _); [|done].
  rewrite list_lookup_fmap.
  destruct (versions_requested_for _ _ !! k) as [v|] eqn:Hk; [|done].
  simpl. by intros [= <-].
Qed.

(** Of two returned FrameworkSpecs, the earlier comes from an earlier
    directory entry, or from the same entry and an earlier requested
    string. *)
Lemma make_spec_pairwise_order entries frameworks endpoint_modes
    categories warmup_time time_limit request_limit rate_limit
    benchmark_modes specs :
  make_spec (Listing entries) frameworks endpoint_modes categories
    warmup_time time_limit request_limit rate_limit benchmark_modes
  = Some specs →
  discovery_order entries frameworks specs.
Proof.
  rewrite make_spec_listing. intros [= <-] i j fs1 fs2 Hij Hi Hj.
  destruct (lookup_bind_order _ _ _ _ _ _ Hij Hi Hj)
    as (a & b & x1 & x2 & k1 & k2 & Ha & Hb & Hk1 & Hk2 & Hord).
  pose proof (list_elem_of_lookup_2 _ _ _ Hk1) as Hfs1.
  pose proof (list_elem_of_lookup_2 _ _ _ Hk2) as Hfs2.
  apply specs_of_entry_elem in Hfs1 as (Had1 & _ & Hp1 & _).
  apply specs_of_entry_elem in Hfs2 as (Had2 & _ & Hp2 & _).
  exists a, b. rewrite Hp1, Hp2. do 4 (split; [done|]).
  destruct Hord as [Hlt|[-> Hlt]]; [by left|right].
  assert (x2 = x1) as -> by congruence.
  assert (FrameworkSpec.name fs1 = FrameworkSpec.name fs2) as Hname.
  { apply adapter_of_spec in Had1 as [_ <-].
    by apply adapter_of_spec in Had2 as [_ <-]. }
  do 2 (split; [done|]).
  apply specs_of_entry_lookup in Hk1, Hk2. rewrite <- Hname in Hk2.
  destruct (versions_requested_for_order _ _ _ _ _ _ Hlt Hk1 Hk2)
    as (p & q & s1 & s2 & Hpq & Hs1 & Hs2 & Hparse1 & Hparse2).
  exists p, q, s1, s2. rewrite <- Hname. by repeat split.
Qed.

Lemma join_fmap_bind {A B} (f : A → list B) (l : list A) :
  mjoin (f <$> l) = l ≫= f.
Proof. by rewrite list_join_bind, list_fmap_bind. Qed.

Lemma specs_of_entry_keys frameworks tests_for name path :
  adapter_of name path →
  spec_key <$> specs_of_entry frameworks tests_for path
  = (λ p, (p.1, p.2, path)) <$> requested_of name frameworks.
Proof.
  intros [Hcond Hname]%adapter_of_spec. unfold specs_of_entry.
  rewrite Hcond. cbv zeta. rewrite Hname.
  unfold versions_requested_for, requested_of.
  rewrite <- !list_fmap_compose. apply list_fmap_ext.
  intros _ [n v] [Hn _]%list_elem_of_lookup_2%list_elem_of_filter.
  simpl in *. by rewrite Hn.
Qed.

Lemma specs_of_entry_no_adapter frameworks tests_for path :
  (∀ name, ¬ adapter_of name path) →
  specs_of_entry frameworks tests_for path = [].
Proof.
  intros Hnone. unfold specs_of_entry.
  destruct (Path.is_file path && Py.endswith _ _) eqn:Hcond; [|done].
  destruct (Hnone (Py.removesuffix (Path.name path) "_app.py")).
  by apply adapter_of_spec.
Qed.

Lemma make_spec_blocks entries frameworks endpoint_modes categories
    warmup_time time_limit request_limit rate_limit benchmark_modes specs :
  make_spec (Listing entries) frameworks endpoint_modes categories
    warmup_time time_limit request_limit rate_limit benchmark_modes
  = Some specs →
  discovery_blocks entries frameworks specs.
Proof.
  rewrite make_spec_listing. intros [= <-].
  eexists (specs_of_entry frameworks _ <$> entries).
  split; [by rewrite join_fmap_bind|].
  apply Forall2_fmap_r, Forall_Forall2_diag, Forall_forall.
  intros path _. split.
  - intros name. apply specs_of_entry_keys.
  - apply specs_of_entry_no_adapter.
Qed.

(** The blocks leave no freedom: two lists that both satisfy
    [discovery_blocks] have the same names, versions and paths at the same
    positions. *)
Lemma discovery_blocks_unique entries frameworks specs1 specs2 :
  discovery_blocks entries frameworks specs1 →
  discovery_blocks entries frameworks specs2 →
  spec_key <$> specs1 = spec_key <$> specs2.
Proof.
  intros (blocks1 & -> & H1) (blocks2 & -> & H2).
  revert blocks2 H2.
  induction H1 as [|path block1 entries blocks1 [Hkeys1 Hnone1] _ IH];
    intros blocks2 H2.
  - by apply Forall2_nil_inv_l in H2 as ->.
  - apply Forall2_cons_inv_l in H2
      as (block2 & blocks2' & [Hkeys2 Hnone2] & H2 & ->).
    simpl. rewrite !fmap_app, (IH _ H2). f_equal.
    destruct (Path.is_file path && Py.endswith (Path.name path) "_app.py")
      eqn:Hcond.
    + assert (adapter_of (Py.removesuffix (Path.name path) "_app.py") path)
        as Hadapter by (by apply adapter_of_spec).
      by rewrite (Hkeys1 _ Hadapter), (Hkeys2 _ Hadapter).
    + assert (∀ name, ¬ adapter_of name path) as Hnone.
      { intros name [Hc _]%adapter_of_spec. congruence. }
      by rewrite (Hnone1 Hnone), (Hnone2 Hnone).
Qed.

(** C5.  The returned FrameworkSpecs stand in the order in which the
    directory listing yields their adapter files, and those of one adapter
    file in the order in which their framework strings were requested: the
    list is the concatenation, entry by entry of the listing, of blocks that
    follow the request position by position (which fixes the name, version
    and path at every position of the list); so of two FrameworkSpecs the
    earlier comes from an earlier entry, or from the same entry and an
    earlier requested string. *)
Theorem framework_specs_in_discovery_order entries frameworks endpoint_modes
    categories warmup_time time_limit request_limit rate_limit
    benchmark_modes specs :
  make_spec (Listing entries) frameworks endpoint_modes categories
    warmup_time time_limit request_limit rate_limit benchmark_modes
  = Some specs →
  discovery_blocks entries frameworks specs ∧
  (∀ specs',
     discovery_blocks entries frameworks specs' →
     spec_key <$> specs' = spec_key <$> specs) ∧
  discovery_order entries frameworks specs.
Proof.
  intros Hrun. pose proof (make_spec_blocks _ _ _ _ _ _ _ _ _ _ Hrun) as Hb.
  split; [done|]. split.
  - intros specs' Hb'. by apply (discovery_blocks_unique entries frameworks).
  - by eapply make_spec_pairwise_order.
Qed.

Lemma framework_specs_in_discovery_order_witness :
  let entries := [Example.starlite_app; Path.mk "README.md" true;
                  Example.sanic_app] in
  let frameworks := ["sanic@1"; "starlite"; "sanic@2"; "sanic@1"] in
  let specs :=
    [Example.starlite;
     FrameworkSpec.mk "sanic" (Some "1") Example.sanic_app
       Example.sanic_tests;
     FrameworkSpec.mk "sanic" (Some "2") Example.sanic_app
       Example.sanic_tests;
     FrameworkSpec.mk "sanic" (Some "1") Example.sanic_app
       Example.sanic_tests] in
  discovery_blocks entries frameworks specs ∧
  (∀ specs',
     discovery_blocks entries frameworks specs' →
     spec_key <$> specs' = spec_key <$> specs) ∧
  discovery_order entries frameworks specs.
Proof.
  apply (framework_specs_in_discovery_order _ _ (Py.Str "sync")
           (Py.Str "dependency-injection") None None None None
           (Py.Str "rps")).
  vm_compute. reflexivity.
Defined.

(** With the strings of one framework requested as versions 1, 2, 1, the
    result has them as 1, 2, 1: neither 2, 1, 1 nor 1, 1, 2 is a list of
    such blocks. *)
Lemma discovery_blocks_fix_repeated_requests :
  let entries := [Example.sanic_app] in
  let frameworks := ["sanic@1"; "sanic@2"; "sanic@1"] in
  let spec version :=
    FrameworkSpec.mk "sanic" (Some version) Example.sanic_app
      Example.sanic_tests in
  make_spec (Listing entries) frameworks (Py.Str "sync")
    (Py.Str "dependency-injection") None None None None (Py.Str "rps")
  = Some [spec "1"; spec "2"; spec "1"] ∧
  ¬ discovery_blocks entries frameworks [spec "2"; spec "1"; spec "1"] ∧
  ¬ discovery_blocks entries frameworks [spec "1"; spec "1"; spec "2"].
Proof.
  intros entries frameworks spec.
  assert (make_spec (Listing entries) frameworks (Py.Str "sync")
            (Py.Str "dependency-injection") None None None None
            (Py.Str "rps")
          = Some [spec "1"; spec "2"; spec "1"]) as Hrun
    by (vm_compute; reflexivity).
  split; [done|].
  pose proof (make_spec_blocks _ _ _ _ _ _ _ _ _ _ Hrun) as Hb.
  split; intros Hwrong;
    pose proof (discovery_blocks_unique _ _ _ _ Hwrong Hb) as Heq;
    vm_compute in Heq; discriminate.
Qed.

(** ** Versioned requests *)

Lemma NoDup_fmap_elem_inj {A B} (f : A → B) (l : list A) x y :
  NoDup (f <$> l) → x ∈ l → y ∈ l → f x = f y → x = y.
Proof.
  intros Hnodup [i Hi]%list_elem_of_lookup [j Hj]%list_elem_of_lookup Heq.
  assert (i = j) as ->; [|congruence].
  eapply NoDup_lookup; [exact Hnodup| |].
  - by rewrite list_lookup_fmap, Hi.
  - by rewrite list_lookup_fmap, Hj, Heq.
Qed.

Lemma filter_all {A} (P : A → Prop) `{!∀ x, Decision (P x)} (l : list A) :
  Forall P l → filter P l = l.
Proof.
  induction 1 as [|x l Hx _ IH]; [done|].
  by rewrite filter_cons_True, IH.
Qed.

Lemma filter_none {A} (P : A → Prop) `{!∀ x, Decision (P x)} (l : list A) :
  Forall (λ x, ¬ P x) l → filter P l = [].
Proof.
  induction 1 as [|x l Hx _ IH]; [done|].
  by rewrite filter_cons_False, IH.
Qed.

Lemma filter_bind {A B} (P : B → Prop) `{!∀ x, Decision (P x)}
    (f : A → list B) (l : list A) :
  filter P (l ≫= f) = l ≫= (λ x, filter P (f x)).
Proof.
  induction l as [|x l IH]; [done|].
  by rewrite !bind_cons, filter_app, IH.
Qed.

Lemma bind_none {A B} (g : A → list B) (l : list A) :
  (∀ y, y ∈ l → g y = []) → l ≫= g = [].
Proof.
  induction l as [|y l IH]; intros Hg; [done|].
  rewrite bind_cons, Hg, IH; [done| |by left].
  intros z Hz. apply Hg. by right.
Qed.

(** A loop in which a single element contributes. *)
Lemma bind_only {A B} (g : A → list B) (l : list A) x :
  NoDup l → x ∈ l → (∀ y, y ∈ l → y ≠ x → g y = []) → l ≫= g = g x.
Proof.
  induction l as [|y l IH]; intros Hnodup Hx Hg; [by apply elem_of_nil in Hx|].
  apply NoDup_cons in Hnodup as [Hy Hnodup]. rewrite bind_cons.
  apply elem_of_cons in Hx as [->|Hx].
  - rewrite bind_none; [by rewrite app_nil_r|].
    intros z Hz. apply Hg; [by right|]. by intros ->.
  - rewrite (Hg y); [|by left|by intros ->]. simpl. apply IH; [done..|].
    intros z Hz. apply Hg. by right.
Qed.

Lemma specs_of_entry_named frameworks tests_for name path :
  adapter_of name path →
  filter (λ fs, FrameworkSpec.name fs = name)
    (specs_of_entry frameworks tests_for path) =
  (λ version, FrameworkSpec.mk name version path (tests_for name))
    <$> versions_requested_for name frameworks.
Proof.
  intros [Hcond Hname]%adapter_of_spec. unfold specs_of_entry.
  rewrite Hcond. cbv zeta. rewrite Hname. apply filter_all.
  by apply Forall_fmap, Forall_true.
Qed.

Lemma specs_of_entry_not_named frameworks tests_for name path :
  ¬ adapter_of name path →
  filter (λ fs, FrameworkSpec.name fs = name)
    (specs_of_entry frameworks tests_for path) = [].
Proof.
  intros Hnot. apply filter_none, Forall_forall. intros fs Hfs Hname.
  apply specs_of_entry_elem in Hfs as (Hadapter & _). by rewrite Hname in *.
Qed.

Lemma versions_requested_for_none name frameworks :
  (∀ s, s ∈ frameworks → (parse_framework s).1 ≠ name) →
  versions_requested_for name frameworks = [].
Proof.
  intros Hnone. unfold versions_requested_for.
  rewrite filter_none; [done|]. apply Forall_forall.
  intros p (s & -> & Hs)%list_elem_of_fmap. by apply Hnone.
Qed.

(** A directory entry that is the adapter of no requested framework
    contributes nothing. *)
Lemma specs_of_entry_unrequested frameworks tests_for path :
  (∀ s, s ∈ frameworks → ¬ adapter_of (parse_framework s).1 path) →
  specs_of_entry frameworks tests_for path = [].
Proof.
  intros Hnone. unfold specs_of_entry.
  destruct (Path.is_file path && Py.endswith _ _) eqn:Hcond; [|done].
  cbv zeta. rewrite versions_requested_for_none; [done|].
  intros s Hs Hname. apply (Hnone s Hs). by apply adapter_of_spec.
Qed.

Lemma length_versions_requested_for name frameworks :
  length (versions_requested_for name frameworks) =
  length (filter (λ s, (parse_framework s).1 = name) frameworks).
Proof.
  induction frameworks as [|s l IH]; [done|].
  rewrite versions_requested_for_cons, filter_cons.
  destruct (decide _); simpl; by rewrite IH.
Qed.

(** C6.  When the directory (whose entries have distinct names) holds the
    adapter file of a framework, the FrameworkSpecs that bear the name of the
    framework are, in the order of the request, one per requested string of
    that name, each with the version of its string, and all of them with the
    same adapter path and the same TestSpec list.  Requesting [sanic@23.3]
    and [sanic@22.12] yields two FrameworkSpecs named [sanic], of versions
    [23.3] and [22.12]. *)
Theorem versioned_requests entries frameworks endpoint_modes categories
    warmup_time time_limit request_limit rate_limit benchmark_modes
    specs name path :
  make_spec (Listing entries) frameworks endpoint_modes categories
    warmup_time time_limit request_limit rate_limit benchmark_modes
  = Some specs →
  NoDup (Path.name <$> entries) → path ∈ entries → adapter_of name path →
  ∃ tests,
    filter (λ fs, FrameworkSpec.name fs = name) specs =
      (λ version, FrameworkSpec.mk name version path tests)
        <$> versions_requested_for name frameworks ∧
    length (filter (λ fs, FrameworkSpec.name fs = name) specs) =
      length (filter (λ s, (parse_framework s).1 = name) frameworks) ∧
    (frameworks = ["sanic@23.3"; "sanic@22.12"] → name = "sanic" →
     specs = [FrameworkSpec.mk "sanic" (Some "23.3") path tests;
              FrameworkSpec.mk "sanic" (Some "22.12") path tests]).
Proof.
  rewrite make_spec_listing. intros [= <-] Hnodup Hpath Hadapter.
  assert (∀ y, y ∈ entries → y ≠ path → ¬ adapter_of name y) as Hother.
  { intros y Hy Hne Hy'. apply Hne.
    apply (NoDup_fmap_elem_inj Path.name entries); [done..|].
    destruct Hadapter as [_ ->]. by destruct Hy' as [_ ->]. }
  eexists. split; [|split].
  - rewrite filter_bind.
    rewrite (bind_only _ entries path); [|by eapply NoDup_fmap_1|done|].
    + by apply specs_of_entry_named.
    + intros y Hy Hne. apply specs_of_entry_not_named. by apply Hother.
  - rewrite filter_bind.
    rewrite (bind_only _ entries path); [|by eapply NoDup_fmap_1|done|].
    + rewrite specs_of_entry_named by done.
      by rewrite length_fmap, length_versions_requested_for.
    + intros y Hy Hne. apply specs_of_entry_not_named. by apply Hother.
  - intros -> ->.
    rewrite (bind_only _ entries path); [|by eapply NoDup_fmap_1|done|].
    + apply adapter_of_spec in Hadapter as [Hcond Hname].
      unfold specs_of_entry. by rewrite Hcond, Hname.
    + intros y Hy Hne. apply specs_of_entry_unrequested.
      intros s [->|[->|[]%elem_of_nil]%elem_of_cons]%elem_of_cons;
        by apply Hother.
Qed.

Lemma versioned_requests_witness :
  ∃ tests,
    filter (λ fs, FrameworkSpec.name fs = "sanic")
      [Example.sanic_23; Example.sanic_22] =
      (λ version, FrameworkSpec.mk "sanic" version Example.sanic_app tests)
        <$> versions_requested_for "sanic" ["sanic@23.3"; "sanic@22.12"] ∧
    length (filter (λ fs, FrameworkSpec.name fs = "sanic")
              [Example.sanic_23; Example.sanic_22]) =
      length (filter (λ s, (parse_framework s).1 = "sanic")
                ["sanic@23.3"; "sanic@22.12"]) ∧
    (["sanic@23.3"; "sanic@22.12"] = ["sanic@23.3"; "sanic@22.12"] →
     "sanic" = "sanic" →
     [Example.sanic_23; Example.sanic_22] =
       [FrameworkSpec.mk "sanic" (Some "23.3") Example.sanic_app tests;
        FrameworkSpec.mk "sanic" (Some "22.12") Example.sanic_app tests]).
Proof.
  apply (versioned_requests
           [Path.mk "README.md" true; Example.sanic_app]
           ["sanic@23.3"; "sanic@22.12"] (Py.Str "sync")
           (Py.Str "dependency-injection") None None None None (Py.Str "rps")
           [Example.sanic_23; Example.sanic_22] "sanic" Example.sanic_app).
  - vm_compute. reflexivity.
  - apply (bool_decide_unpack _). vm_compute. exact I.
  - apply (bool_decide_unpack _). vm_compute. exact I.
  - split; vm_compute; reflexivity.
Defined.

(** ** Framework strings *)

Lemma parse_framework_spec s :
  parse_framework s =
  (before_first "@" s,
   match from_first "@" s with
   | EmptyString => None
   | String _ version => Some version
   end).
Proof.
  unfold parse_framework.
  pose proof (split_once_fst "@" s) as Hfst.
  pose proof (split_once_snd "@" s) as Hsnd.
  destruct (Py.split "@" (Some 1%nat) s) as [name parts]. simpl in *.
  rewrite Hfst, Hsnd. by destruct (from_first "@" s).
Qed.

(** C7.  A requested framework string is split at its first ["@"] only: the
    name is the text before it and the version all the text after it, further
    ["@"] included; a string without ["@"] is the name, with no version.  The
    dictionary of the request maps each name to the versions of the strings
    of that name, duplicates kept, in the order of the request, and every
    returned FrameworkSpec has the name and the version of a requested
    string. *)
Theorem framework_strings_split_at_first_at frameworks name version s n :
  parse_framework s =
    (before_first "@" s,
     match from_first "@" s with
     | EmptyString => None
     | String _ rest => Some rest
     end) ∧
  (¬ occurs "@" name →
   parse_framework (name +:+ "@" +:+ version) = (name, Some version)) ∧
  (¬ occurs "@" s → parse_framework s = (s, None)) ∧
  foldl request_framework ∅ frameworks !! n =
    match versions_requested_for n frameworks with
    | [] => None
    | versions => Some versions
    end ∧
  length (versions_requested_for n frameworks) =
    length (filter (λ s, (parse_framework s).1 = n) frameworks) ∧
  ∀ dir endpoint_modes categories warmup_time time_limit request_limit
    rate_limit benchmark_modes specs fs,
    make_spec dir frameworks endpoint_modes categories warmup_time time_limit
      request_limit rate_limit benchmark_modes = Some specs →
    fs ∈ specs →
    ∃ requested,
      requested ∈ frameworks ∧
      parse_framework requested
        = (FrameworkSpec.name fs, FrameworkSpec.version fs).
Proof.
  split; [apply parse_framework_spec|].
  split.
  { intros Hname. unfold parse_framework.
    change ("@" +:+ version) with (String "@" version).
    by rewrite split_once. }
  split. { intros Hs. unfold parse_framework. by rewrite split_absent. }
  split; [apply requested_frameworks_lookup|].
  split; [apply length_versions_requested_for|].
  intros dir ems cats wt tl rl ral bms specs fs Hrun Hfs.
  destruct (make_spec_readable _ _ _ _ _ _ _ _ _ _ Hrun) as [entries ->].
  rewrite make_spec_listing in Hrun. injection Hrun as <-.
  apply list_elem_of_bind in Hfs as (path & Hfs & _).
  apply specs_of_entry_elem in Hfs as (_ & Hv & _).
  apply list_elem_of_lookup in Hv as [k Hk].
  apply versions_requested_for_lookup, list_elem_of_lookup_2,
    list_elem_of_filter in Hk as [_ Hk].
  apply list_elem_of_fmap in Hk as (requested & Hparse & Hrequested).
  by exists requested.
Qed.

Lemma framework_strings_split_at_first_at_witness :
  parse_framework "sanic@23.3@beta" = ("sanic", Some "23.3@beta") ∧
  parse_framework "sanic" = ("sanic", None) ∧
  foldl request_framework ∅ ["sanic@23.3"; "starlite"; "sanic"; "sanic@23.3"]
    !! "sanic" = Some [Some "23.3"; None; Some "23.3"].
Proof.
  destruct (framework_strings_split_at_first_at
              ["sanic@23.3"; "starlite"; "sanic"; "sanic@23.3"]
              "sanic" "23.3@beta" "sanic" "sanic")
    as (_ & Hsplit & Hwhole & Hgroup & _).
  split; [|split].
  - apply Hsplit. apply (bool_decide_unpack _). vm_compute. exact I.
  - apply Hwhole. apply (bool_decide_unpack _). vm_compute. exact I.
  - rewrite Hgroup. vm_compute. reflexivity.
Defined.

(** ** Unmatched requests *)

(** C8.  Whenever the [frameworks] directory can be listed, [make_spec]
    returns a list.  A framework name without an adapter file
    [<name>_app.py] in the directory is borne by no returned FrameworkSpec; a
    category name that the catalogue does not have is the category of no
    TestSpec.  When no requested framework has an adapter file the result is
    the empty list, and when no requested category is in the catalogue every
    returned FrameworkSpec has an empty TestSpec list. *)
Theorem unmatched_requests_are_skipped entries frameworks endpoint_modes
    categories warmup_time time_limit request_limit rate_limit
    benchmark_modes :
  ∃ specs,
    make_spec (Listing entries) frameworks endpoint_modes categories
      warmup_time time_limit request_limit rate_limit benchmark_modes
    = Some specs ∧
    (∀ name,
       (∀ path, path ∈ entries → ¬ adapter_of name path) →
       ∀ fs, fs ∈ specs → FrameworkSpec.name fs ≠ name) ∧
    (∀ category,
       category ∉ ENDPOINT_CATEGORIES →
       ∀ fs t, fs ∈ specs → t ∈ FrameworkSpec.tests fs →
               TestSpec.category t ≠ category) ∧
    ((∀ requested path,
        requested ∈ frameworks → path ∈ entries →
        ¬ adapter_of (parse_framework requested).1 path) →
     specs = []) ∧
    ((∀ category,
        category ∈ Py.as_tuple categories →
        category ∉ ENDPOINT_CATEGORIES) →
     ∀ fs, fs ∈ specs → FrameworkSpec.tests fs = []).
Proof.
  eexists. split; [apply make_spec_listing|].
  pose proof (make_spec_listing entries frameworks endpoint_modes categories
                warmup_time time_limit request_limit rate_limit
                benchmark_modes) as Hrun.
  split; [|split; [|split]].
  - intros name Hnone fs (path & Hfs & Hpath)%list_elem_of_bind <-.
    apply specs_of_entry_elem in Hfs as (Hadapter & _).
    by apply (Hnone path).
  - intros category Hunknown fs t Hfs Ht <-. apply Hunknown.
    destruct (make_spec_produced _ _ _ _ _ _ _ _ _ _ Hrun fs t Hfs Ht)
      as (bm & em & c & e & _ & _ & Hc & _ & _ & ->).
    simpl. unfold ENDPOINT_CATEGORIES. apply list_elem_of_fmap. eauto.
  - intros Hnone. apply bind_none. intros path Hpath.
    apply specs_of_entry_unrequested. intros requested Hrequested.
    by apply Hnone.
  - intros Hunknown fs Hfs.
    rewrite (make_spec_tests _ _ _ _ _ _ _ _ _ _ Hrun fs Hfs).
    apply nil_length_inv. rewrite make_test_specs_length.
    rewrite filter_none; [simpl; lia|].
    apply Forall_forall. intros c Hc Hrequested.
    apply (Hunknown _ Hrequested). unfold ENDPOINT_CATEGORIES.
    apply list_elem_of_fmap. eauto.
Qed.

Lemma unmatched_requests_are_skipped_witness :
  make_spec Example.dir ["quart"; "django@4.2"] (Py.Str "sync")
    (Py.Tuple ["json"; "graphql"]) None None None None (Py.Str "rps")
  = Some [].
Proof.
  destruct (unmatched_requests_are_skipped
              [Example.sanic_app; Path.mk "README.md" true;
               Path.mk "__pycache__" false; Example.starlite_app]
              ["quart"; "django@4.2"] (Py.Str "sync")
              (Py.Tuple ["json"; "graphql"]) None None None None
              (Py.Str "rps"))
    as (specs & Hrun & _ & _ & Hnone & _).
  rewrite Hnone in Hrun; [exact Hrun|].
  intros requested path Hrequested. revert path. apply Forall_forall.
  revert requested Hrequested. apply Forall_forall.
  apply (bool_decide_unpack _). vm_compute. exact I.
Defined.

(** * Repeated invocations *)

(** ** The heap *)

Lemma items_of_weaken (h h' : heap) l items :
  h ⊆ h' → items_of h l = Some items → items_of h' l = Some items.
Proof.
  unfold items_of. intros Hsub.
  destruct (h !! l) as [c|] eqn:Hl; [|done].
  by rewrite (lookup_weaken _ _ _ _ Hl Hsub).
Qed.

Lemma items_of_Some (h : heap) l items :
  items_of h l = Some items ↔ h !! l = Some (CList items).
Proof.
  unfold items_of. destruct (h !! l) as [[?|?]|]; split; congruence.
Qed.

Lemma decode_list_Some {A} (h : heap) (decode : val → option A) l xs :
  decode_list h decode l = Some xs ↔
  ∃ items, h !! l = Some (CList items) ∧
           Forall2 (λ v x, decode v = Some x) items xs.
Proof.
  unfold decode_list. split.
  - destruct (items_of h l) as [items|] eqn:Hitems; [|done]. simpl.
    intros Hmap%mapM_Some. exists items. by rewrite <- items_of_Some.
  - intros (items & ->%items_of_Some & Hmap). simpl. by apply mapM_Some.
Qed.

Lemma decode_list_weaken {A} (h h' : heap) (decode decode' : val → option A)
    l xs :
  h ⊆ h' → (∀ v x, decode v = Some x → decode' v = Some x) →
  decode_list h decode l = Some xs → decode_list h' decode' l = Some xs.
Proof.
  intros Hsub Hdecode (items & Hl & Hitems)%decode_list_Some.
  apply decode_list_Some. exists items.
  split; [by apply (lookup_weaken _ _ _ _ Hl Hsub)|].
  eapply Forall2_impl; [exact Hitems|]. auto.
Qed.

Lemma decode_endpoint_weaken (h h' : heap) v e :
  h ⊆ h' → decode_endpoint h v = Some e → decode_endpoint h' v = Some e.
Proof.
  intros Hsub. destruct v; try done. simpl.
  destruct (decode_list h decode_str _) as [ex|] eqn:Hex; [|done].
  destruct (decode_list h decode_header _) as [hd|] eqn:Hhd; [|done].
  simpl. intros <-.
  rewrite (decode_list_weaken _ _ _ _ _ _ Hsub (λ _ _ H, H) Hex).
  by rewrite (decode_list_weaken _ _ _ _ _ _ Hsub (λ _ _ H, H) Hhd).
Qed.

Lemma decode_category_weaken (h h' : heap) v c :
  h ⊆ h' → decode_category h v = Some c → decode_category h' v = Some c.
Proof.
  intros Hsub. destruct v; try done. simpl.
  destruct (decode_list h (decode_endpoint h) _) as [es|] eqn:Hes; [|done].
  simpl. intros <-.
  by rewrite (decode_list_weaken _ _ _ (decode_endpoint h') _ _ Hsub
                (λ v e, decode_endpoint_weaken h h' v e Hsub) Hes).
Qed.

Lemma decode_test_spec_weaken (h h' : heap) v t :
  h ⊆ h' → decode_test_spec h v = Some t → decode_test_spec h' v = Some t.
Proof.
  intros Hsub. destruct v; try done. simpl.
  destruct (decode_list h decode_header _) as [hd|] eqn:Hhd; [|done].
  simpl. intros <-.
  by rewrite (decode_list_weaken _ _ _ _ _ _ Hsub (λ _ _ H, H) Hhd).
Qed.

Lemma decode_framework_spec_weaken (h h' : heap) v fs :
  h ⊆ h' →
  decode_framework_spec h v = Some fs → decode_framework_spec h' v = Some fs.
Proof.
  intros Hsub. destruct v; try done. simpl.
  destruct (decode_version _) as [version|]; [|done]. simpl.
  destruct (decode_list h (decode_test_spec h) _) as [ts|] eqn:Hts; [|done].
  simpl. intros <-.
  by rewrite (decode_list_weaken _ _ _ (decode_test_spec h') _ _ Hsub
                (λ v t, decode_test_spec_weaken h h' v t Hsub) Hts).
Qed.

Lemma decode_catalogue_weaken (h h' : heap) catalogue cats :
  h ⊆ h' →
  decode_catalogue h catalogue = Some cats →
  decode_catalogue h' catalogue = Some cats.
Proof.
  intros Hsub. apply decode_list_weaken; [done|].
  intros v c. by apply decode_category_weaken.
Qed.

Lemma decode_specs_weaken (h h' : heap) framework_specs specs :
  h ⊆ h' →
  decode_specs h framework_specs = Some specs →
  decode_specs h' framework_specs = Some specs.
Proof.
  intros Hsub. apply decode_list_weaken; [done|].
  intros v c. by apply decode_framework_spec_weaken.
Qed.

(** A new object changes no object that was there. *)
Lemma alloc_spec c (h : heap) :
  ∃ l, alloc c h = Some (l, <[l := c]> h) ∧ h !! l = None ∧
       h ⊆ <[l := c]> h.
Proof.
  exists (fresh (dom h)).
  assert (h !! fresh (dom h) = None) as Hfresh
    by (apply not_elem_of_dom, is_fresh).
  split; [done|]. split; [done|]. by apply insert_subseteq.
Qed.

(** ** Comprehensions *)

Lemma for_yield_cons {A B} (x : A) items (clause : A → option (list B)) :
  for_yield (x :: items) clause =
  ys ← clause x; rest ← for_yield items clause; Some (ys ++ rest).
Proof.
  unfold for_yield. simpl. destruct (clause x) as [ys|]; [|done]. simpl.
  by destruct (mapM clause items).
Qed.

Lemma for_yield_Forall2 {A A' B B'} (S : A → A' → Prop) (R : B → B' → Prop)
    (clause : A → option (list B)) (g : A' → list B') items items' :
  Forall2 S items items' →
  (∀ x x', S x x' → ∃ ys, clause x = Some ys ∧ Forall2 R ys (g x')) →
  ∃ ys, for_yield items clause = Some ys ∧ Forall2 R ys (items' ≫= g).
Proof.
  intros Hitems Hclause.
  induction Hitems as [|x x' items items' Hx _ (rest & Hrest & IH)].
  - exists []. by split; [|constructor].
  - destruct (Hclause x x' Hx) as (ys & Hys & Hg).
    exists (ys ++ rest). split; [by rewrite for_yield_cons, Hys, Hrest|].
    rewrite bind_cons. by apply Forall2_app.
Qed.

Lemma Forall2_same {A} (l : list A) : Forall2 eq l l.
Proof. induction l; by constructor. Qed.

Lemma selected_values_spec (h : heap) catalogue categories cats :
  decode_catalogue h catalogue = Some cats →
  ∃ selected,
    selected_values categories catalogue h = Some selected ∧
    Forall2 (λ v c, decode_category h v = Some c) selected
      (filter (λ c, TestCategory.name c ∈ categories) cats).
Proof.
  intros (items & Hitems%items_of_Some & Hcats)%decode_list_Some.
  unfold selected_values. rewrite Hitems. simpl. rewrite filter_as_bind.
  apply (for_yield_Forall2 _ _ _ _ _ _ Hcats).
  intros v c Hv. destruct v; try done. simpl in Hv.
  destruct (decode_list _ _ _) as [es|] eqn:Hes; [|done].
  injection Hv as <-. simpl. eexists. split; [done|].
  destruct (decide _) as [Hin|Hout].
  - rewrite bool_decide_eq_true_2 by done. constructor; [|constructor].
    simpl. by rewrite Hes.
  - rewrite bool_decide_eq_false_2 by done. constructor.
Qed.

Lemma elem_of_decode_str items strings name :
  Forall2 (λ v s, decode_str v = Some s) items strings →
  VStr name ∈ items ↔ name ∈ strings.
Proof.
  induction 1 as [|v s items strings Hv _ IH].
  - by rewrite !elem_of_nil.
  - rewrite !elem_of_cons, IH. destruct v; try done.
    injection Hv as ->. split; intros [?|?]; auto; left; congruence.
Qed.

Lemma test_spec_value_spec (g h : heap) framework_name warmup_time
    time_limit request_limit rate_limit benchmark_mode endpoint_mode
    category_value c endpoint_value e :
  g ⊆ h →
  decode_category g category_value = Some c →
  decode_endpoint g endpoint_value = Some e →
  ∃ v,
    test_spec_value framework_name warmup_time time_limit request_limit
      rate_limit benchmark_mode endpoint_mode h category_value
      endpoint_value = Some v ∧
    decode_test_spec g v
    = Some (make_test_spec framework_name warmup_time time_limit
              request_limit rate_limit benchmark_mode endpoint_mode c e).
Proof.
  intros Hsub Hc He.
  destruct category_value; try done. destruct endpoint_value; try done.
  simpl in Hc, He.
  destruct (decode_list g (decode_endpoint g) _) as [es|]; [|done].
  destruct (decode_list g decode_str _) as [excluded|] eqn:Hex; [|done].
  destruct (decode_list g decode_header _) as [hd|] eqn:Hhd; [|done].
  simpl in Hc, He. injection Hc as <-. injection He as <-.
  apply decode_list_Some in Hex as (items & Hitems & Hexcluded).
  unfold test_spec_value.
  rewrite (proj2 (items_of_Some h _ _)
             (lookup_weaken _ _ _ _ Hitems Hsub)).
  unfold make_test_spec. simpl.
  destruct (bool_decide (framework_name ∈ frameworks)) eqn:Hin; simpl;
    (eexists; split; [reflexivity|]); simpl; rewrite Hhd; simpl; [|done].
  do 3 f_equal. apply bool_decide_ext. by apply elem_of_decode_str.
Qed.

Lemma test_spec_values_of_category (g h : heap) framework_name warmup_time
    time_limit request_limit rate_limit benchmark_mode endpoint_mode
    category_value c endpoint_values endpoints :
  g ⊆ h →
  decode_category g category_value = Some c →
  Forall2 (λ v e, decode_endpoint g v = Some e) endpoint_values endpoints →
  ∃ tests,
    mapM (test_spec_value framework_name warmup_time time_limit
            request_limit rate_limit benchmark_mode endpoint_mode h
            category_value) endpoint_values = Some tests ∧
    Forall2 (λ v t, decode_test_spec g v = Some t) tests
      (endpoint ← endpoints;
       [make_test_spec framework_name warmup_time time_limit request_limit
          rate_limit benchmark_mode endpoint_mode c endpoint]).
Proof.
  intros Hsub Hc.
  induction 1 as [|ev e evals es He _ (tests & Htests & IH)].
  - exists []. by split; [|constructor].
  - destruct (test_spec_value_spec g h framework_name warmup_time
                time_limit request_limit rate_limit benchmark_mode
                endpoint_mode _ _ ev e Hsub Hc He) as (tv & Htv & Hdec).
    exists (tv :: tests). simpl. rewrite Htv. simpl. rewrite Htests. simpl.
    split; [done|]. by constructor.
Qed.

Lemma test_spec_values_spec (g h : heap) framework_name warmup_time
    time_limit request_limit rate_limit benchmark_modes endpoint_modes
    selected_categories selected :
  g ⊆ h →
  decode_list g (decode_category g) selected_categories = Some selected →
  ∃ tests,
    test_spec_values framework_name warmup_time time_limit request_limit
      rate_limit benchmark_modes endpoint_modes selected_categories h
    = Some tests ∧
    Forall2 (λ v t, decode_test_spec g v = Some t) tests
      (make_test_specs framework_name warmup_time time_limit request_limit
         rate_limit benchmark_modes endpoint_modes selected).
Proof.
  intros Hsub (items & Hitems & Hselected)%decode_list_Some.
  unfold test_spec_values, make_test_specs.
  apply (for_yield_Forall2 eq); [apply Forall2_same|]. intros bm _ <-.
  apply (for_yield_Forall2 eq); [apply Forall2_same|]. intros em _ <-.
  rewrite (proj2 (items_of_Some h _ _) (lookup_weaken _ _ _ _ Hitems Hsub)).
  simpl. apply (for_yield_Forall2 _ _ _ _ _ _ Hselected).
  intros v c Hv. pose proof Hv as Hdecode.
  destruct v; try done. simpl in Hv.
  destruct (decode_list g (decode_endpoint g) _) as [es|] eqn:Hes; [|done].
  injection Hv as <-.
  apply decode_list_Some in Hes as (evals & Hevals & Hendpoints).
  rewrite (proj2 (items_of_Some h _ _) (lookup_weaken _ _ _ _ Hevals Hsub)).
  simpl. by eapply test_spec_values_of_category.
Qed.

(** ** The loop over the requested strings *)

Lemma versions_requested_for_snoc name requested framework :
  versions_requested_for name (requested ++ [framework]) =
  versions_requested_for name requested
  ++ (if decide ((parse_framework framework).1 = name)
      then [(parse_framework framework).2] else []).
Proof.
  unfold versions_requested_for.
  rewrite fmap_app, filter_app, fmap_app. f_equal. simpl.
  rewrite filter_cons. by destruct (decide _).
Qed.

Lemma request_recorded_new (base : heap) d :
  base !! d = None → request_recorded base d [] (<[d := CDict ∅]> base).
Proof.
  intros Hd. split; [by apply insert_subseteq|]. split; [done|].
  exists ∅. split; [apply lookup_insert_eq|]. by split; [|split].
Qed.

Lemma request_step base d requested framework (h : heap) :
  request_recorded base d requested h →
  ∃ h',
    (let '(name, version) := parse_framework framework in
     versions ← defaultdict_getitem d name;
     list_append versions (val_of_version version)) h = Some ((), h') ∧
    request_recorded base d (requested ++ [framework]) h'.
Proof.
  intros (Hbase & Hd & items & Hitems & Hsome & Hnone & Hinj).
  destruct (parse_framework framework) as [name version] eqn:Hparse.
  unfold mbind, M_bind, defaultdict_getitem. rewrite Hitems.
  assert (∀ n, versions_requested_for n (requested ++ [framework]) =
               versions_requested_for n requested
               ++ (if decide (name = n) then [version] else [])) as Hsnoc.
  { intros n. by rewrite versions_requested_for_snoc, Hparse. }
  destruct (items !! name) as [l|] eqn:Hname.
  - destruct (Hsome _ _ Hname) as (Hfresh & Hne & Hl).
    unfold list_append. rewrite Hl. eexists. split; [done|].
    split; [by apply insert_subseteq_r|]. split; [done|].
    exists items. split; [by rewrite lookup_insert_ne|].
    split; [|split; [|done]].
    + intros n l' Hn. destruct (Hsome _ _ Hn) as (? & ? & Hl').
      do 2 (split; [done|]). rewrite Hsnoc.
      destruct (decide (name = n)) as [<-|Hdiff].
      * assert (l' = l) as -> by congruence.
        by rewrite lookup_insert_eq, fmap_app.
      * rewrite lookup_insert_ne, app_nil_r; [done|].
        intros <-. apply Hdiff. by apply (Hinj _ _ l).
    + intros n Hn. rewrite Hsnoc, (Hnone _ Hn).
      destruct (decide (name = n)) as [<-|]; [congruence|done].
  - destruct (alloc_spec (CList []) h) as (l & Halloc & Hl & _).
    unfold mbind, M_bind. rewrite Halloc.
    assert (l ≠ d) as Hld by congruence.
    unfold dict_setitem. rewrite lookup_insert_ne, Hitems by done.
    simpl. unfold list_append.
    rewrite lookup_insert_ne, lookup_insert_eq by done.
    assert (base !! l = None) as Hbl.
    { destruct (base !! l) as [c|] eqn:Hc; [|done].
      by rewrite (lookup_weaken _ _ _ _ Hc Hbase) in Hl. }
    eexists. split; [done|].
    split; [by do 2 (apply insert_subseteq_r; [done|]);
                 apply insert_subseteq_r|].
    split; [done|].
    exists (<[name := l]> items).
    split; [by rewrite lookup_insert_ne, lookup_insert_eq|].
    split; [|split].
    + intros n l' Hn. rewrite Hsnoc.
      destruct (decide (name = n)) as [<-|Hdiff].
      * rewrite lookup_insert_eq in Hn. injection Hn as <-.
        do 2 (split; [done|]).
        by rewrite lookup_insert_eq, (Hnone _ Hname).
      * rewrite lookup_insert_ne in Hn by done.
        destruct (Hsome _ _ Hn) as (? & ? & Hl').
        do 2 (split; [done|]).
        assert (l' ≠ l) by congruence.
        by rewrite !lookup_insert_ne, app_nil_r.
    + intros n Hn. rewrite Hsnoc.
      destruct (decide (name = n)) as [<-|Hdiff];
        [by rewrite lookup_insert_eq in Hn|].
      rewrite lookup_insert_ne in Hn by done.
      by rewrite (Hnone _ Hn).
    + intros n n' l' Hn Hn'.
      destruct (decide (name = n)) as [<-|Hdiff],
               (decide (name = n')) as [<-|Hdiff']; [done|..].
      * rewrite lookup_insert_eq in Hn. rewrite lookup_insert_ne in Hn' by done.
        injection Hn as <-. destruct (Hsome _ _ Hn') as (_ & _ & ?).
        congruence.
      * rewrite lookup_insert_eq in Hn'. rewrite lookup_insert_ne in Hn by done.
        injection Hn' as <-. destruct (Hsome _ _ Hn) as (_ & _ & ?).
        congruence.
      * rewrite lookup_insert_ne in Hn, Hn' by done. by apply (Hinj _ _ l').
Qed.

Lemma request_loop base d frameworks requested (h : heap) :
  request_recorded base d requested h →
  ∃ h',
    for_each frameworks (λ framework,
      let '(name, version) := parse_framework framework in
      versions ← defaultdict_getitem d name;
      list_append versions (val_of_version version)) h = Some ((), h') ∧
    request_recorded base d (requested ++ frameworks) h'.
Proof.
  revert requested h.
  induction frameworks as [|framework frameworks IH]; intros requested h Hh.
  - exists h. by rewrite app_nil_r.
  - destruct (request_step _ _ _ framework _ Hh) as (h1 & Hstep & Hh1).
    destruct (IH _ _ Hh1) as (h2 & Hloop & Hh2).
    exists h2. rewrite <- app_assoc in Hh2. split; [|done].
    simpl. unfold mbind at 1, M_bind at 1. by rewrite Hstep.
Qed.

(** ** The loop over the directory entries *)

Lemma bind_M_Some {A B} (m : M A) (f : A → M B) (h h' : heap) x :
  m h = Some (x, h') → (m ≫= f) h = f x h'.
Proof. unfold mbind, M_bind. by intros ->. Qed.

Lemma subseteq_delete (m1 m2 : heap) i :
  m1 ⊆ m2 → m1 !! i = None → m1 ⊆ delete i m2.
Proof.
  rewrite !map_subseteq_spec. intros Hsub Hi j x Hj.
  apply lookup_delete_Some. split; [congruence|]. by apply Hsub.
Qed.

Lemma specs_collected_lookup start framework_specs specs (h : heap) l c :
  specs_collected start framework_specs specs h →
  l ≠ framework_specs → start !! l = Some c → h !! l = Some c.
Proof.
  intros [Hsub _] Hne Hl.
  assert (delete framework_specs start !! l = Some c) as Hdel
    by by apply lookup_delete_Some.
  pose proof (lookup_weaken _ _ _ _ Hdel Hsub) as Hh.
  by apply lookup_delete_Some in Hh as [_ ?].
Qed.

Lemma specs_collected_alloc start framework_specs specs (h : heap) l c :
  specs_collected start framework_specs specs h →
  h !! l = None →
  specs_collected start framework_specs specs (<[l := c]> h).
Proof.
  intros (Hsub & items & Hitems & Hspecs) Hl.
  assert (framework_specs ≠ l) as Hne by congruence.
  assert (delete framework_specs h
          ⊆ delete framework_specs (<[l := c]> h)) as Hgrow.
  { apply delete_mono. by apply insert_subseteq. }
  split; [by transitivity (delete framework_specs h)|].
  exists items. split; [by rewrite lookup_insert_ne|].
  eapply Forall2_impl; [exact Hspecs|].
  intros v fs. by apply decode_framework_spec_weaken.
Qed.

Lemma decode_version_of_version version :
  decode_version (val_of_version version) = Some version.
Proof. by destruct version. Qed.

Lemma versions_loop (g start : heap) framework_specs selected_categories
    selected framework_name path warmup_time time_limit request_limit
    rate_limit benchmark_modes endpoint_modes versions specs (h : heap) :
  g ⊆ delete framework_specs start →
  decode_list g (decode_category g) selected_categories = Some selected →
  specs_collected start framework_specs specs h →
  ∃ h',
    for_each (val_of_version <$> versions) (λ requested_version,
      tests ← read (test_spec_values framework_name warmup_time time_limit
                      request_limit rate_limit benchmark_modes endpoint_modes
                      selected_categories);
      test_specs ← alloc (CList tests);
      list_append framework_specs
        (VFrameworkSpec framework_name requested_version path test_specs)) h
    = Some ((), h') ∧
    specs_collected start framework_specs
      (specs ++
       ((λ version,
           FrameworkSpec.mk framework_name version path
             (make_test_specs framework_name warmup_time time_limit
                request_limit rate_limit benchmark_modes endpoint_modes
                selected)) <$> versions)) h'.
Proof.
  intros Hg Hselected. revert specs h.
  induction versions as [|version versions IH]; intros specs h Hh.
  - exists h. by rewrite app_nil_r.
  - destruct Hh as (Hsub & items & Hitems & Hspecs).
    assert (g ⊆ delete framework_specs h) as Hgh by by transitivity
      (delete framework_specs start).
    assert (g ⊆ h) as Hgh'
      by (transitivity (delete framework_specs h);
          [done|apply delete_subseteq]).
    destruct (test_spec_values_spec g h framework_name warmup_time
                time_limit request_limit rate_limit benchmark_modes
                endpoint_modes selected_categories selected Hgh' Hselected)
      as (tests & Htests & Hdecoded).
    destruct (alloc_spec (CList tests) h) as (l & Halloc & Hl & _).
    assert (framework_specs ≠ l) as Hne by congruence.
    set (h' := <[framework_specs :=
                   CList (items ++ [VFrameworkSpec framework_name
                                      (val_of_version version) path l])]>
                 (<[l := CList tests]> h)).
    assert (delete framework_specs h' = <[l := CList tests]>
                                          (delete framework_specs h)) as Hh'.
    { unfold h'. by rewrite delete_insert_eq, delete_insert_ne. }
    assert (delete framework_specs h ⊆ delete framework_specs h') as Hgrow.
    { rewrite Hh'. apply insert_subseteq.
      by rewrite lookup_delete_ne. }
    destruct (IH (specs ++ [FrameworkSpec.mk framework_name version path
                              (make_test_specs framework_name warmup_time
                                 time_limit request_limit rate_limit
                                 benchmark_modes endpoint_modes selected)])
                h') as (h'' & Hloop & Hh'').
    { split; [by transitivity (delete framework_specs h)|].
      eexists. split; [apply lookup_insert_eq|].
      apply Forall2_app.
      - eapply Forall2_impl; [exact Hspecs|].
        intros v fs. by apply decode_framework_spec_weaken.
      - constructor; [|constructor]. simpl.
        rewrite decode_version_of_version. simpl.
        assert (decode_list (delete framework_specs h')
                  (decode_test_spec (delete framework_specs h')) l
                = Some (make_test_specs framework_name warmup_time
                          time_limit request_limit rate_limit
                          benchmark_modes endpoint_modes selected)) as ->;
          [|done].
        apply decode_list_Some. exists tests.
        split; [by rewrite Hh', lookup_insert_eq|].
        eapply Forall2_impl; [exact Hdecoded|].
        intros v t. apply decode_test_spec_weaken.
        by transitivity (delete framework_specs h). }
    exists h''. rewrite <- app_assoc in Hh''. split; [|done].
    rewrite fmap_cons. simpl for_each.
    rewrite (bind_M_Some _ _ h h' ()); [done|].
    rewrite (bind_M_Some _ _ h h tests) by (unfold read; by rewrite Htests).
    rewrite (bind_M_Some _ _ _ _ _ Halloc).
    unfold list_append. by rewrite lookup_insert_ne, Hitems.
Qed.

Lemma entry_step (g base start : heap) framework_specs requested_frameworks
    selected_categories selected frameworks warmup_time time_limit
    request_limit rate_limit benchmark_modes endpoint_modes path specs
    (h : heap) :
  g ⊆ delete framework_specs start →
  decode_list g (decode_category g) selected_categories = Some selected →
  request_recorded base requested_frameworks frameworks start →
  is_Some (base !! framework_specs) →
  specs_collected start framework_specs specs h →
  ∃ h',
    (if Path.is_file path && Py.endswith (Path.name path) "_app.py" then
       let framework_name := Py.removesuffix (Path.name path) "_app.py" in
       present ← dict_contains requested_frameworks framework_name;
       if negb present then mret ()
       else
         empty ← alloc (CList []);
         versions ← dict_get requested_frameworks framework_name empty;
         requested_versions ← read (λ h, items_of h versions);
         for_each requested_versions (λ requested_version,
           tests ← read (test_spec_values framework_name warmup_time
                           time_limit request_limit rate_limit
                           benchmark_modes endpoint_modes
                           selected_categories);
           test_specs ← alloc (CList tests);
           list_append framework_specs
             (VFrameworkSpec framework_name requested_version path
                test_specs))
     else mret ()) h = Some ((), h') ∧
    specs_collected start framework_specs
      (specs ++
       specs_of_entry frameworks
         (λ framework_name,
            make_test_specs framework_name warmup_time time_limit
              request_limit rate_limit benchmark_modes endpoint_modes
              selected) path) h'.
Proof.
  intros Hg Hselected (Hbase & Hd & items & Hitems & Hsome & Hnone & _)
    [c Hfs] Hh.
  unfold specs_of_entry.
  destruct (Path.is_file path && Py.endswith (Path.name path) "_app.py");
    [|exists h; by rewrite app_nil_r].
  cbv zeta. set (framework_name := Py.removesuffix (Path.name path) "_app.py").
  assert (requested_frameworks ≠ framework_specs) as Hne by congruence.
  pose proof (specs_collected_lookup _ _ _ _ _ _ Hh Hne Hitems) as Hdict.
  rewrite (bind_M_Some _ _ h h (bool_decide (is_Some (items !! framework_name))))
    by (unfold dict_contains; by rewrite Hdict).
  destruct (items !! framework_name) as [l|] eqn:Hname.
  - rewrite bool_decide_eq_true_2 by done. cbn [negb].
    destruct (Hsome _ _ Hname) as (Hl & _ & Hversions).
    assert (l ≠ framework_specs) as Hne' by congruence.
    pose proof (specs_collected_lookup _ _ _ _ _ _ Hh Hne' Hversions)
      as Hlist.
    destruct (alloc_spec (CList []) h) as (empty & Halloc & Hempty & _).
    rewrite (bind_M_Some _ _ _ _ _ Halloc).
    rewrite (bind_M_Some _ _ _ (<[empty := CList []]> h) l).
    2:{ unfold dict_get. rewrite lookup_insert_ne, Hdict by congruence.
        by rewrite Hname. }
    rewrite (bind_M_Some _ _ _ (<[empty := CList []]> h)
               (val_of_version
                  <$> versions_requested_for framework_name frameworks)).
    2:{ unfold read, items_of. by rewrite lookup_insert_ne, Hlist by congruence. }
    apply (versions_loop g); [done..|]. by apply specs_collected_alloc.
  - rewrite bool_decide_eq_false_2 by (by intros [??]). cbn [negb].
    exists h. by rewrite (Hnone _ Hname), app_nil_r.
Qed.

Lemma entries_loop (g base start : heap) framework_specs requested_frameworks
    selected_categories selected frameworks warmup_time time_limit
    request_limit rate_limit benchmark_modes endpoint_modes entries specs
    (h : heap) :
  g ⊆ delete framework_specs start →
  decode_list g (decode_category g) selected_categories = Some selected →
  request_recorded base requested_frameworks frameworks start →
  is_Some (base !! framework_specs) →
  specs_collected start framework_specs specs h →
  ∃ h',
    for_each entries (λ path,
      if Path.is_file path && Py.endswith (Path.name path) "_app.py" then
        let framework_name := Py.removesuffix (Path.name path) "_app.py" in
        present ← dict_contains requested_frameworks framework_name;
        if negb present then mret ()
        else
          empty ← alloc (CList []);
          versions ← dict_get requested_frameworks framework_name empty;
          requested_versions ← read (λ h, items_of h versions);
          for_each requested_versions (λ requested_version,
            tests ← read (test_spec_values framework_name warmup_time
                            time_limit request_limit rate_limit
                            benchmark_modes endpoint_modes
                            selected_categories);
            test_specs ← alloc (CList tests);
            list_append framework_specs
              (VFrameworkSpec framework_name requested_version path
                 test_specs))
      else mret ()) h = Some ((), h') ∧
    specs_collected start framework_specs
      (specs ++
       (entries ≫= specs_of_entry frameworks
          (λ framework_name,
             make_test_specs framework_name warmup_time time_limit
               request_limit rate_limit benchmark_modes endpoint_modes
               selected))) h'.
Proof.
  intros Hg Hselected Hrequests Hfs. revert specs h.
  induction entries as [|path entries IH]; intros specs h Hh.
  - exists h. by rewrite app_nil_r.
  - destruct (entry_step g base start framework_specs requested_frameworks
                selected_categories selected frameworks warmup_time
                time_limit request_limit rate_limit benchmark_modes
                endpoint_modes path specs h Hg Hselected Hrequests Hfs Hh)
      as (h1 & Hstep & Hh1).
    destruct (IH _ _ Hh1) as (h2 & Hloop & Hh2).
    exists h2. rewrite <- app_assoc in Hh2. split; [|done].
    simpl for_each. by rewrite (bind_M_Some _ _ _ _ _ Hstep).
Qed.

(** ** One invocation

    An invocation in a heap [h] that holds the catalogue returns a new list
    that reads as the result of the function on structures, and changes no
    object of [h]. *)
Lemma make_spec_in_heap_refines catalogue entries frameworks endpoint_modes
    categories warmup_time time_limit request_limit rate_limit
    benchmark_modes (h : heap) :
  decode_catalogue h catalogue = Some TEST_CATEGORIES →
  ∃ framework_specs h',
    make_spec_in_heap catalogue (Listing entries) frameworks endpoint_modes
      categories warmup_time time_limit request_limit rate_limit
      benchmark_modes h = Some (framework_specs, h') ∧
    h ⊆ h' ∧ h !! framework_specs = None ∧
    decode_specs h' framework_specs
    = make_spec (Listing entries) frameworks endpoint_modes categories
        warmup_time time_limit request_limit rate_limit benchmark_modes.
Proof.
  intros Hcatalogue. rewrite make_spec_listing. unfold make_spec_in_heap.
  cbv zeta.
  destruct (selected_values_spec h catalogue (Py.as_tuple categories) _
              Hcatalogue) as (selected & Hselected & Hdecoded).
  rewrite (bind_M_Some _ _ h h selected)
    by (unfold read; by rewrite Hselected).
  destruct (alloc_spec (CList selected) h)
    as (selected_categories & Halloc & Hsel & HhA).
  rewrite (bind_M_Some _ _ _ _ _ Halloc).
  set (hA := <[selected_categories := CList selected]> h) in *.
  assert (decode_list hA (decode_category hA) selected_categories
          = Some (filter (λ c, TestCategory.name c ∈ Py.as_tuple categories)
                    TEST_CATEGORIES)) as HselA.
  { apply decode_list_Some. exists selected.
    split; [apply lookup_insert_eq|].
    eapply Forall2_impl; [exact Hdecoded|].
    intros v c. by apply decode_category_weaken. }
  destruct (alloc_spec (CList []) hA) as (framework_specs & Halloc' & Hfs & HhB).
  rewrite (bind_M_Some _ _ _ _ _ Halloc').
  set (hB := <[framework_specs := CList []]> hA) in *.
  destruct (alloc_spec (CDict ∅) hB)
    as (requested_frameworks & Halloc'' & Hd & HhB').
  rewrite (bind_M_Some _ _ _ _ _ Halloc'').
  destruct (request_loop hB requested_frameworks frameworks []
              (<[requested_frameworks := CDict ∅]> hB))
    as (hC & Hrequests & HhC).
  { split; [done|]. split; [done|]. exists ∅.
    split; [apply lookup_insert_eq|]. by split; [|split]. }
  rewrite (bind_M_Some _ _ _ _ _ Hrequests).
  rewrite (bind_M_Some _ _ hC hC entries) by done.
  assert (hB !! framework_specs = Some (CList [])) as HfsB
    by apply lookup_insert_eq.
  assert (hA ⊆ delete framework_specs hC) as HhAC.
  { apply subseteq_delete; [|done].
    transitivity hB; [done|]. by destruct HhC as [? _]. }
  destruct (entries_loop hA hB hC framework_specs requested_frameworks
              selected_categories _ frameworks warmup_time time_limit
              request_limit rate_limit (Py.as_tuple benchmark_modes)
              (Py.as_tuple endpoint_modes) entries [] hC HhAC HselA HhC)
    as (hD & Hentries & HhCD & items & Hitems & Hspecs); [done|..].
  { split; [done|]. exists []. split; [|constructor].
    destruct HhC as [HBC _]. by apply (lookup_weaken _ _ _ _ HfsB HBC). }
  rewrite (bind_M_Some _ _ _ _ _ Hentries).
  exists framework_specs, hD. split; [done|].
  split; [|split].
  - transitivity hA; [done|].
    transitivity (delete framework_specs hC); [done|].
    transitivity (delete framework_specs hD); [done|].
    apply delete_subseteq.
  - destruct (h !! framework_specs) as [c|] eqn:Hc; [|done].
    by rewrite (lookup_weaken _ _ _ _ Hc HhA) in Hfs.
  - apply decode_list_Some. exists items. split; [done|].
    eapply Forall2_impl; [exact Hspecs|].
    intros v fs. apply decode_framework_spec_weaken, delete_subseteq.
Qed.

(** An unreadable directory makes the invocation raise. *)
Lemma make_spec_in_heap_unreadable catalogue frameworks endpoint_modes
    categories warmup_time time_limit request_limit rate_limit
    benchmark_modes (h : heap) :
  decode_catalogue h catalogue = Some TEST_CATEGORIES →
  make_spec_in_heap catalogue Unreadable frameworks endpoint_modes
    categories warmup_time time_limit request_limit rate_limit
    benchmark_modes h = None.
Proof.
  intros Hcatalogue. unfold make_spec_in_heap. cbv zeta.
  destruct (selected_values_spec h catalogue (Py.as_tuple categories) _
              Hcatalogue) as (selected & Hselected & _).
  rewrite (bind_M_Some _ _ h h selected)
    by (unfold read; by rewrite Hselected).
  destruct (alloc_spec (CList selected) h)
    as (selected_categories & Halloc & _).
  rewrite (bind_M_Some _ _ _ _ _ Halloc).
  destruct (alloc_spec (CList [])
              (<[selected_categories := CList selected]> h))
    as (framework_specs & Halloc' & _).
  rewrite (bind_M_Some _ _ _ _ _ Halloc').
  destruct (alloc_spec (CDict ∅)
              (<[framework_specs := CList []]>
                 (<[selected_categories := CList selected]> h)))
    as (requested_frameworks & Halloc'' & Hd & _).
  rewrite (bind_M_Some _ _ _ _ _ Halloc'').
  destruct (request_loop _ _ frameworks [] _
              (request_recorded_new _ _ Hd)) as (hC & Hrequests & _).
  by rewrite (bind_M_Some _ _ _ _ _ Hrequests).
Qed.

(** ** Two invocations *)

Lemma module_import :
  new_catalogue ∅ = Some (imported_catalogue, imported_heap).
Proof. vm_compute. reflexivity. Qed.

(** C9.  [make_spec] is deterministic.  In a process whose heap holds the
    catalogue, an invocation returns a new list and leaves every object
    that existed as it was.  So a later invocation with the same arguments
    on the same directory listing, whatever objects the process has made in
    between, returns another new list, and the two lists read as one and the
    same structure: the same number of FrameworkSpecs in the same order,
    equal field by field, with equal TestSpecs.  The first list still reads
    so after the second invocation, and the structure is the result of
    [make_spec] on structures. *)
Theorem make_spec_idempotent catalogue entries frameworks endpoint_modes
    categories warmup_time time_limit request_limit rate_limit
    benchmark_modes (h : heap) :
  decode_catalogue h catalogue = Some TEST_CATEGORIES →
  ∃ specs first h1,
    make_spec (Listing entries) frameworks endpoint_modes categories
      warmup_time time_limit request_limit rate_limit benchmark_modes
    = Some specs ∧
    make_spec_in_heap catalogue (Listing entries) frameworks endpoint_modes
      categories warmup_time time_limit request_limit rate_limit
      benchmark_modes h = Some (first, h1) ∧
    decode_specs h1 first = Some specs ∧
    ∀ h1', h1 ⊆ h1' →
      ∃ second h2,
        make_spec_in_heap catalogue (Listing entries) frameworks
          endpoint_modes categories warmup_time time_limit request_limit
          rate_limit benchmark_modes h1' = Some (second, h2) ∧
        second ≠ first ∧
        decode_specs h2 second = Some specs ∧
        decode_specs h2 first = Some specs.
Proof.
  intros Hcatalogue.
  destruct (make_spec_in_heap_refines catalogue entries frameworks
              endpoint_modes categories warmup_time time_limit request_limit
              rate_limit benchmark_modes h Hcatalogue)
    as (first & h1 & Hfirst & Hh1 & _ & Hspecs).
  rewrite make_spec_listing in Hspecs |- *.
  eexists _, first, h1. split; [done|]. split; [done|]. split; [done|].
  intros h1' Hh1'.
  assert (decode_catalogue h1' catalogue = Some TEST_CATEGORIES) as Hagain.
  { apply (decode_catalogue_weaken h); [|done]. by transitivity h1. }
  destruct (make_spec_in_heap_refines catalogue entries frameworks
              endpoint_modes categories warmup_time time_limit request_limit
              rate_limit benchmark_modes h1' Hagain)
    as (second & h2 & Hsecond & Hh2 & Hnew & Hspecs').
  rewrite make_spec_listing in Hspecs'.
  exists second, h2. split; [done|]. split; [|split; [done|]].
  - intros ->.
    apply decode_list_Some in Hspecs as (items & Hitems & _).
    by rewrite (lookup_weaken _ _ _ _ Hitems Hh1') in Hnew.
  - apply (decode_specs_weaken h1); [|done]. by transitivity h1'.
Qed.

Lemma make_spec_idempotent_witness :
  let run := make_spec_in_heap imported_catalogue Example.dir
               Example.frameworks (Py.Str "sync")
               (Py.Str "dependency-injection") None None None None
               (Py.Str "rps") in
  decode_catalogue imported_heap imported_catalogue = Some TEST_CATEGORIES ∧
  ∃ specs first h1,
    make_spec Example.dir Example.frameworks (Py.Str "sync")
      (Py.Str "dependency-injection") None None None None (Py.Str "rps")
    = Some specs ∧
    run imported_heap = Some (first, h1) ∧
    decode_specs h1 first = Some specs ∧
    ∀ h1', h1 ⊆ h1' →
      ∃ second h2,
        run h1' = Some (second, h2) ∧
        second ≠ first ∧
        decode_specs h2 second = Some specs ∧
        decode_specs h2 first = Some specs.
Proof.
  split; [vm_compute; reflexivity|].
  apply (make_spec_idempotent imported_catalogue _ Example.frameworks).
  vm_compute. reflexivity.
Defined.

(** The worked run, twice in the process that imported the module: the two
    results are two lists, and both read as the FrameworkSpecs of the worked
    run. *)
Lemma make_spec_in_heap_twice :
  let run := make_spec_in_heap imported_catalogue Example.dir
               Example.frameworks (Py.Str "sync")
               (Py.Str "dependency-injection") None None None None
               (Py.Str "rps") in
  ('(first, h1) ← run imported_heap;
   '(second, h2) ← run h1;
   Some (bool_decide (first ≠ second), decode_specs h1 first,
         decode_specs h2 first, decode_specs h2 second))
  = Some (true, Some Example.specs, Some Example.specs, Some Example.specs).
Proof. vm_compute. reflexivity. Qed.

(** * Further properties of the module *)

(** ** Framework strings, both ways *)

Lemma occurs_append c (a b : string) :
  occurs c (a +:+ b) ↔ occurs c a ∨ occurs c b.
Proof.
  unfold occurs. induction a as [|x a IH]; simpl.
  - rewrite elem_of_nil. tauto.
  - rewrite !elem_of_cons, IH. tauto.
Qed.

Lemma append_empty_r (a : string) : a +:+ "" = a.
Proof. induction a as [|x a IH]; simpl; [done|]. by rewrite IH. Qed.

Lemma framework_string_parse s :
  framework_string (parse_framework s).1 (parse_framework s).2 = s.
Proof.
  rewrite parse_framework_spec. simpl.
  pose proof (before_from_first "@" s) as Hs.
  destruct (from_first_head "@" s) as [Hnone|[version Hsome]].
  - rewrite Hnone, append_empty_r in *. simpl. exact Hs.
  - rewrite Hsome in *. simpl. exact Hs.
Qed.

(** X1.  Parsing a requested framework string loses nothing: the name holds
    no ["@"], the name and the version put together again ([name], or
    [name@version]) are the string, and so two different strings never parse
    to the same name and version. *)
Theorem parse_framework_round_trip s s' :
  ¬ occurs "@" (parse_framework s).1 ∧
  framework_string (parse_framework s).1 (parse_framework s).2 = s ∧
  (parse_framework s = parse_framework s' → s = s').
Proof.
  split; [|split].
  - rewrite parse_framework_spec. apply before_first_free.
  - apply framework_string_parse.
  - intros Heq. rewrite <- (framework_string_parse s).
    rewrite <- (framework_string_parse s'). by rewrite Heq.
Qed.

(** ** What every FrameworkSpec and TestSpec carries *)

(** X2.  Every returned FrameworkSpec points at an entry of the directory
    that is a file called [<name>_app.py], where [name] is the name of the
    FrameworkSpec; the name holds no ["@"], and the version is one that was
    requested for the name. *)
Theorem framework_spec_adapter entries frameworks endpoint_modes categories
    warmup_time time_limit request_limit rate_limit benchmark_modes
    specs fs :
  make_spec (Listing entries) frameworks endpoint_modes categories
    warmup_time time_limit request_limit rate_limit benchmark_modes
  = Some specs →
  fs ∈ specs →
  FrameworkSpec.path fs ∈ entries ∧
  Path.is_file (FrameworkSpec.path fs) = true ∧
  Path.name (FrameworkSpec.path fs) = FrameworkSpec.name fs +:+ "_app.py" ∧
  ¬ occurs "@" (FrameworkSpec.name fs) ∧
  FrameworkSpec.version fs
    ∈ versions_requested_for (FrameworkSpec.name fs) frameworks.
Proof.
  rewrite make_spec_listing. intros [= <-] (path & Hfs & Hpath)%list_elem_of_bind.
  apply specs_of_entry_elem in Hfs as ([Hfile Hname] & Hv & -> & _).
  do 3 (split; [done|]). split; [|done].
  apply list_elem_of_lookup in Hv as [k Hk].
  apply versions_requested_for_lookup, list_elem_of_lookup_2,
    list_elem_of_filter in Hk as [_ Hk].
  apply list_elem_of_fmap in Hk as (requested & Hparse & _).
  replace (FrameworkSpec.name fs) with (parse_framework requested).1
    by (by rewrite <- Hparse).
  rewrite parse_framework_spec. apply before_first_free.
Qed.

Lemma framework_spec_adapter_witness :
  Example.sanic_app
    ∈ [Example.sanic_app; Path.mk "README.md" true;
       Path.mk "__pycache__" false; Example.starlite_app] ∧
  Path.is_file Example.sanic_app = true ∧
  Path.name Example.sanic_app = "sanic" +:+ "_app.py" ∧
  ¬ occurs "@" "sanic" ∧
  Some "22.12" ∈ versions_requested_for "sanic" Example.frameworks.
Proof.
  apply (framework_spec_adapter _ Example.frameworks (Py.Str "sync")
           (Py.Str "dependency-injection") None None None None (Py.Str "rps")
           Example.specs Example.sanic_22).
  - vm_compute. reflexivity.
  - apply (bool_decide_unpack _). vm_compute. exact I.
Defined.

Lemma catalogue_without_headers :
  Forall (λ c, Forall (λ e, Endpoint.headers e = [])
                 (TestCategory.endpoints c)) TEST_CATEGORIES.
Proof. by_evaluation. Qed.

(** X3.  [warmup_time] has no default: every TestSpec carries the argument of
    the call as it is, be it unset or zero, in every benchmark mode.  No
    endpoint of the catalogue declares headers, so every TestSpec has an
    empty header list. *)
Theorem warmup_time_and_headers dir frameworks endpoint_modes categories
    warmup_time time_limit request_limit rate_limit benchmark_modes
    specs fs t :
  make_spec dir frameworks endpoint_modes categories warmup_time time_limit
    request_limit rate_limit benchmark_modes = Some specs →
  fs ∈ specs → t ∈ FrameworkSpec.tests fs →
  TestSpec.warmup_time t = warmup_time ∧ TestSpec.headers t = [].
Proof.
  intros Hrun Hfs Ht.
  destruct (make_spec_produced _ _ _ _ _ _ _ _ _ _ Hrun fs t Hfs Ht)
    as (bm & em & c & e & _ & _ & Hc & _ & He & ->).
  split; [done|]. simpl.
  pose proof (proj1 (Forall_forall _ _) catalogue_without_headers c Hc) as H.
  exact (proj1 (Forall_forall _ _) H e He).
Qed.

Lemma warmup_time_and_headers_witness :
  let t := Example.response_cookies "rps" (Some 0) (Some 15) None None in
  TestSpec.warmup_time t = Some 0 ∧ TestSpec.headers t = [].
Proof.
  apply (warmup_time_and_headers Example.dir ["starlite"] (Py.Str "async")
           (Py.Str "dynamic-response") (Some 0) None None None (Py.Str "rps")
           (Example.dynamic_specs "rps" (Some 0) (Some 15) None None)
           (FrameworkSpec.mk "starlite" None Example.starlite_app
              (Example.dynamic_tests "rps" (Some 0) (Some 15) None None))).
  - vm_compute. reflexivity.
  - apply (bool_decide_unpack _). vm_compute. exact I.
  - apply (bool_decide_unpack _). vm_compute. exact I.
Defined.

(** X4.  When the endpoint mode holds no ["?"], neither does the slug: the
    query string of the endpoint path never reaches [slug_name]. *)
Theorem slug_name_without_query dir frameworks endpoint_modes categories
    warmup_time time_limit request_limit rate_limit benchmark_modes
    specs fs t :
  make_spec dir frameworks endpoint_modes categories warmup_time time_limit
    request_limit rate_limit benchmark_modes = Some specs →
  fs ∈ specs → t ∈ FrameworkSpec.tests fs →
  ¬ occurs "?" (TestSpec.endpoint_mode t) →
  ¬ occurs "?" (TestSpec.slug_name t).
Proof.
  intros Hrun Hfs Ht.
  destruct (make_spec_produced _ _ _ _ _ _ _ _ _ _ Hrun fs t Hfs Ht)
    as (bm & em & c & e & _ & _ & _ & _ & _ & ->).
  cbn [make_test_spec TestSpec.slug_name TestSpec.endpoint_mode].
  intros Hmode. rewrite split_unlimited_fst, !occurs_append.
  intros [?|[Hdash|Hslug]]; [done| |by apply before_first_free in Hslug].
  revert Hdash. apply (bool_decide_unpack _). vm_compute. exact I.
Qed.

Lemma slug_name_without_query_witness :
  ¬ occurs "?" (TestSpec.slug_name Example.query_param).
Proof.
  apply (slug_name_without_query Example.dir ["starlite"] (Py.Str "sync")
           (Py.Str "params") None None None None (Py.Str "rps")
           [Example.params_spec] Example.params_spec Example.query_param).
  - vm_compute. reflexivity.
  - apply (bool_decide_unpack _). vm_compute. exact I.
  - apply (bool_decide_unpack _). vm_compute. exact I.
  - apply (bool_decide_unpack _). vm_compute. exact I.
Defined.

(** ** What has no influence on the result *)

Lemma bind_ext_in {A B} (f g : A → list B) (l : list A) :
  (∀ x, x ∈ l → f x = g x) → l ≫= f = l ≫= g.
Proof.
  induction l as [|x l IH]; intros Hfg; [done|].
  rewrite !bind_cons, Hfg, IH; [done| |by left].
  intros y Hy. apply Hfg. by right.
Qed.

Lemma filter_ext_in {A} (P Q : A → Prop)
    `{!∀ x, Decision (P x), !∀ x, Decision (Q x)} (l : list A) :
  (∀ x, x ∈ l → P x ↔ Q x) → filter P l = filter Q l.
Proof.
  induction l as [|x l IH]; intros HPQ; [done|].
  rewrite !filter_cons, IH by (intros y Hy; apply HPQ; by right).
  destruct (decide (P x)) as [HP|HP], (decide (Q x)) as [HQ|HQ]; try done;
    by apply (HPQ x) in HP + apply (HPQ x) in HQ; [|left..].
Qed.

Lemma versions_requested_for_app name frameworks1 frameworks2 :
  versions_requested_for name (frameworks1 ++ frameworks2) =
  versions_requested_for name frameworks1
  ++ versions_requested_for name frameworks2.
Proof.
  unfold versions_requested_for. by rewrite fmap_app, filter_app, fmap_app.
Qed.

(** The request matters only through the versions it holds for the names
    that have an adapter file in the directory. *)
Lemma make_spec_frameworks_ext entries frameworks frameworks' endpoint_modes
    categories warmup_time time_limit request_limit rate_limit
    benchmark_modes :
  (∀ name path,
     path ∈ entries → adapter_of name path →
     versions_requested_for name frameworks
     = versions_requested_for name frameworks') →
  make_spec (Listing entries) frameworks endpoint_modes categories
    warmup_time time_limit request_limit rate_limit benchmark_modes =
  make_spec (Listing entries) frameworks' endpoint_modes categories
    warmup_time time_limit request_limit rate_limit benchmark_modes.
Proof.
  intros Hsame. rewrite !make_spec_listing. f_equal.
  apply bind_ext_in. intros path Hpath. unfold specs_of_entry.
  destruct (Path.is_file path && Py.endswith _ _) eqn:Hcond; [|done].
  cbv zeta. by rewrite (Hsame _ path Hpath (proj2 (adapter_of_spec _ _)
                                              (conj Hcond eq_refl))).
Qed.

(** X5.  Directory entries that are not the adapter file of a requested
    framework (other files, sub-directories, adapters of frameworks that were
    not requested) have no influence: the result is the same with and without
    them. *)
Theorem unrequested_entries_ignored before stray after frameworks
    endpoint_modes categories warmup_time time_limit request_limit rate_limit
    benchmark_modes :
  (∀ path requested,
     path ∈ stray → requested ∈ frameworks →
     ¬ adapter_of (parse_framework requested).1 path) →
  make_spec (Listing (before ++ stray ++ after)) frameworks endpoint_modes
    categories warmup_time time_limit request_limit rate_limit benchmark_modes
  = make_spec (Listing (before ++ after)) frameworks endpoint_modes
      categories warmup_time time_limit request_limit rate_limit
      benchmark_modes.
Proof.
  intros Hstray. rewrite !make_spec_listing, !bind_app. do 2 f_equal.
  rewrite bind_none; [done|]. intros path Hpath.
  apply specs_of_entry_unrequested. intros requested Hrequested.
  by apply Hstray.
Qed.

Lemma unrequested_entries_ignored_witness :
  make_spec Example.dir ["sanic@23.3"; "sanic@22.12"] (Py.Str "sync")
    (Py.Str "dependency-injection") None None None None (Py.Str "rps")
  = make_spec (Listing [Example.sanic_app]) ["sanic@23.3"; "sanic@22.12"]
      (Py.Str "sync") (Py.Str "dependency-injection") None None None None
      (Py.Str "rps").
Proof.
  apply (unrequested_entries_ignored [Example.sanic_app]
           [Path.mk "README.md" true; Path.mk "__pycache__" false;
            Example.starlite_app] []).
  intros path requested Hpath. revert requested. apply Forall_forall.
  revert path Hpath. apply Forall_forall.
  apply (bool_decide_unpack _). vm_compute. exact I.
Defined.

(** X6.  The order in which the file system lists the directory decides the
    order of the result and nothing else: listings that are permutations of
    each other give results that are permutations of each other. *)
Theorem directory_order_permutes entries entries' frameworks endpoint_modes
    categories warmup_time time_limit request_limit rate_limit
    benchmark_modes :
  entries ≡ₚ entries' →
  ∃ specs specs',
    make_spec (Listing entries) frameworks endpoint_modes categories
      warmup_time time_limit request_limit rate_limit benchmark_modes
    = Some specs ∧
    make_spec (Listing entries') frameworks endpoint_modes categories
      warmup_time time_limit request_limit rate_limit benchmark_modes
    = Some specs' ∧
    specs ≡ₚ specs'.
Proof.
  intros Hperm. rewrite !make_spec_listing. do 2 eexists.
  split; [done|]. split; [done|]. by rewrite Hperm.
Qed.

Lemma directory_order_permutes_witness :
  ∃ specs specs',
    make_spec (Listing [Example.sanic_app; Example.starlite_app])
      Example.frameworks (Py.Str "sync") (Py.Str "dependency-injection")
      None None None None (Py.Str "rps")
    = Some specs ∧
    make_spec (Listing [Example.starlite_app; Example.sanic_app])
      Example.frameworks (Py.Str "sync") (Py.Str "dependency-injection")
      None None None None (Py.Str "rps")
    = Some specs' ∧
    specs ≡ₚ specs'.
Proof.
  apply (directory_order_permutes
           [Example.sanic_app; Example.starlite_app]
           [Example.starlite_app; Example.sanic_app]).
  apply perm_swap.
Defined.

(** X7.  Requested framework strings whose framework has no adapter file in
    the directory have no influence: the result is the same with and without
    them. *)
Theorem unmatched_frameworks_ignored entries before unmatched after
    endpoint_modes categories warmup_time time_limit request_limit rate_limit
    benchmark_modes :
  (∀ requested path,
     requested ∈ unmatched → path ∈ entries →
     ¬ adapter_of (parse_framework requested).1 path) →
  make_spec (Listing entries) (before ++ unmatched ++ after) endpoint_modes
    categories warmup_time time_limit request_limit rate_limit benchmark_modes
  = make_spec (Listing entries) (before ++ after) endpoint_modes categories
      warmup_time time_limit request_limit rate_limit benchmark_modes.
Proof.
  intros Hunmatched. apply make_spec_frameworks_ext. intros name path Hpath Had.
  rewrite !versions_requested_for_app.
  rewrite (versions_requested_for_none name unmatched); [done|].
  intros requested Hrequested Hname.
  apply (Hunmatched requested path Hrequested Hpath). by rewrite Hname.
Qed.

Lemma unmatched_frameworks_ignored_witness :
  make_spec Example.dir Example.frameworks (Py.Str "sync")
    (Py.Str "dependency-injection") None None None None (Py.Str "rps")
  = make_spec Example.dir ["sanic@23.3"; "starlite"; "sanic@22.12"]
      (Py.Str "sync") (Py.Str "dependency-injection") None None None None
      (Py.Str "rps").
Proof.
  apply (unmatched_frameworks_ignored _ ["sanic@23.3"; "starlite"] ["quart"]
           ["sanic@22.12"]).
  intros requested path Hrequested. revert path. apply Forall_forall.
  revert requested Hrequested. apply Forall_forall.
  apply (bool_decide_unpack _). vm_compute. exact I.
Defined.

(** X8.  Requested category names that the catalogue does not have have no
    influence: the result is the same with and without them. *)
Theorem unknown_categories_ignored dir frameworks endpoint_modes
    before unknown after warmup_time time_limit request_limit rate_limit
    benchmark_modes :
  (∀ category, category ∈ unknown → category ∉ ENDPOINT_CATEGORIES) →
  make_spec dir frameworks endpoint_modes
    (Py.Tuple (before ++ unknown ++ after)) warmup_time time_limit
    request_limit rate_limit benchmark_modes
  = make_spec dir frameworks endpoint_modes (Py.Tuple (before ++ after))
      warmup_time time_limit request_limit rate_limit benchmark_modes.
Proof.
  intros Hunknown. destruct dir as [|entries]; [done|].
  rewrite !make_spec_listing.
  rewrite (filter_ext_in
             (λ c, TestCategory.name c
                   ∈ Py.as_tuple (Py.Tuple (before ++ unknown ++ after)))
             (λ c, TestCategory.name c
                   ∈ Py.as_tuple (Py.Tuple (before ++ after)))
             TEST_CATEGORIES); [done|].
  intros c Hc. simpl. rewrite !elem_of_app.
  split; [intros [?|[Hin|?]]|intros [?|?]]; auto.
  exfalso. apply (Hunknown _ Hin). unfold ENDPOINT_CATEGORIES.
  apply list_elem_of_fmap. eauto.
Qed.

Lemma unknown_categories_ignored_witness :
  make_spec Example.dir Example.frameworks (Py.Str "sync")
    (Py.Tuple (["graphql"] ++ ["dependency-injection"])) None None None None
    (Py.Str "rps")
  = make_spec Example.dir Example.frameworks (Py.Str "sync")
      (Py.Tuple ["dependency-injection"]) None None None None (Py.Str "rps").
Proof.
  apply (unknown_categories_ignored Example.dir Example.frameworks
           (Py.Str "sync") [] ["graphql"] ["dependency-injection"]).
  apply Forall_forall. apply (bool_decide_unpack _). vm_compute. exact I.
Defined.

(** X9.  The order of the request matters among the strings of one framework
    only: exchanging two neighbouring requested strings of different
    frameworks does not change the result. *)
Theorem request_order_across_frameworks entries before a b after
    endpoint_modes categories warmup_time time_limit request_limit rate_limit
    benchmark_modes :
  (parse_framework a).1 ≠ (parse_framework b).1 →
  make_spec (Listing entries) (before ++ a :: b :: after) endpoint_modes
    categories warmup_time time_limit request_limit rate_limit benchmark_modes
  = make_spec (Listing entries) (before ++ b :: a :: after) endpoint_modes
      categories warmup_time time_limit request_limit rate_limit
      benchmark_modes.
Proof.
  intros Hne. apply make_spec_frameworks_ext. intros name _ _ _.
  rewrite !versions_requested_for_app, !versions_requested_for_cons.
  f_equal. repeat destruct (decide _); try done. congruence.
Qed.

Lemma request_order_across_frameworks_witness :
  make_spec Example.dir ["sanic@23.3"; "starlite"; "sanic@22.12"]
    (Py.Str "sync") (Py.Str "dependency-injection") None None None None
    (Py.Str "rps")
  = make_spec Example.dir ["starlite"; "sanic@23.3"; "sanic@22.12"]
      (Py.Str "sync") (Py.Str "dependency-injection") None None None None
      (Py.Str "rps").
Proof.
  apply (request_order_across_frameworks _ [] "sanic@23.3" "starlite"
           ["sanic@22.12"]).
  vm_compute. discriminate.
Defined.

(** ** How many FrameworkSpecs *)

Lemma length_specs_of_entry_cons requested frameworks tests_for path :
  length (specs_of_entry (requested :: frameworks) tests_for path) =
  ((if decide (adapter_of (parse_framework requested).1 path) then 1 else 0)
   + length (specs_of_entry frameworks tests_for path))%nat.
Proof.
  unfold specs_of_entry.
  destruct (Path.is_file path && Py.endswith _ _) eqn:Hcond.
  - cbv zeta. rewrite !length_fmap, versions_requested_for_cons, length_app.
    f_equal. destruct (decide (_ = _)) as [Heq|Hne].
    + rewrite decide_True; [done|]. by apply adapter_of_spec.
    + rewrite decide_False; [done|]. by intros [_ ?]%adapter_of_spec.
  - rewrite decide_False; [done|]. intros [? _]%adapter_of_spec. congruence.
Qed.

Lemma length_bind_step {A B} (P : A → Prop) `{!∀ x, Decision (P x)}
    (f g : A → list B) (l : list A) :
  (∀ x, length (f x) = ((if decide (P x) then 1 else 0) + length (g x))%nat) →
  length (l ≫= f) = (length (filter P l) + length (l ≫= g))%nat.
Proof.
  intros Hstep. induction l as [|x l IH]; [done|].
  rewrite !bind_cons, !length_app, filter_cons, Hstep, IH.
  destruct (decide (P x)); simpl; lia.
Qed.

(** In a directory, a framework has at most one adapter file. *)
Lemma length_adapters entries name :
  NoDup (Path.name <$> entries) →
  length (filter (adapter_of name) entries) =
  if decide (has_adapter entries name) then 1%nat else 0%nat.
Proof.
  intros Hnodup. destruct (decide _) as [Hhas|Hnot].
  - apply Exists_exists in Hhas as (path & Hpath & Hadapter).
    assert (path ∈ filter (adapter_of name) entries) as Hin
      by (by apply list_elem_of_filter).
    pose proof (NoDup_filter (adapter_of name) _ (NoDup_fmap_1 _ _ Hnodup))
      as Hfilter.
    destruct (filter (adapter_of name) entries) as [|x [|y l]] eqn:Heq;
      [by apply elem_of_nil in Hin|done|].
    exfalso. apply NoDup_cons in Hfilter as [Hx _]. apply Hx.
    assert (x ∈ filter (adapter_of name) entries) as [Hax Hex]%list_elem_of_filter
      by (rewrite Heq; by left).
    assert (y ∈ filter (adapter_of name) entries) as [Hay Hey]%list_elem_of_filter
      by (rewrite Heq; right; by left).
    assert (x = y) as ->; [|by left].
    apply (NoDup_fmap_elem_inj Path.name entries); [done..|].
    destruct Hax as [_ ->]. by destruct Hay as [_ ->].
  - apply length_zero_iff_nil, filter_none, Forall_forall.
    intros path Hpath Hadapter. apply Hnot, Exists_exists. eauto.
Qed.

(** X10.  In a directory whose entries have distinct names, the result holds
    exactly one FrameworkSpec per requested string whose framework has an
    adapter file (a string requested twice counts twice); it never holds more
    FrameworkSpecs than strings were requested. *)
Theorem one_spec_per_matched_request entries frameworks endpoint_modes
    categories warmup_time time_limit request_limit rate_limit
    benchmark_modes specs :
  make_spec (Listing entries) frameworks endpoint_modes categories
    warmup_time time_limit request_limit rate_limit benchmark_modes
  = Some specs →
  NoDup (Path.name <$> entries) →
  length specs =
    length (filter (λ requested,
                      has_adapter entries (parse_framework requested).1)
              frameworks) ∧
  (length specs ≤ length frameworks)%nat.
Proof.
  rewrite make_spec_listing. intros [= <-] Hnodup.
  match goal with |- ?P ∧ _ => assert P as Hcount end.
  { induction frameworks as [|requested frameworks IH].
    - rewrite bind_none; [done|]. intros path _. unfold specs_of_entry.
      by destruct (_ && _).
    - rewrite (length_bind_step _ _ _ _
                 (length_specs_of_entry_cons requested frameworks _)), IH.
      rewrite length_adapters, filter_cons by done.
      by destruct (decide _). }
  split; [done|]. rewrite Hcount. apply length_filter.
Qed.

Lemma one_spec_per_matched_request_witness :
  length Example.specs =
    length (filter (λ requested,
                      has_adapter
                        [Example.sanic_app; Path.mk "README.md" true;
                         Path.mk "__pycache__" false; Example.starlite_app]
                        (parse_framework requested).1)
              Example.frameworks) ∧
  (length Example.specs ≤ length Example.frameworks)%nat.
Proof.
  apply (one_spec_per_matched_request _ Example.frameworks (Py.Str "sync")
           (Py.Str "dependency-injection") None None None None (Py.Str "rps")
           Example.specs).
  - vm_compute. reflexivity.
  - apply (bool_decide_unpack _). vm_compute. exact I.
Defined.

(** ** The test matrix of one FrameworkSpec *)

Lemma catalogue_endpoints_present :
  Forall (λ c, TestCategory.endpoints c ≠ []) TEST_CATEGORIES.
Proof. by_evaluation. Qed.

Lemma cells_nil selected :
  (∀ c, c ∈ selected → TestCategory.endpoints c ≠ []) →
  cells selected = [] ↔ selected = [].
Proof.
  intros Hendpoints. split; [|by intros ->].
  destruct selected as [|c selected]; [done|].
  rewrite cells_cons. intros [Hnil _]%app_eq_nil.
  apply fmap_nil_inv in Hnil. destruct (Hendpoints c); [by left|done].
Qed.

Lemma selected_nil (categories : list string) :
  filter (λ c, TestCategory.name c ∈ categories) TEST_CATEGORIES = [] ↔
  ∀ category, category ∈ categories → category ∉ ENDPOINT_CATEGORIES.
Proof.
  unfold ENDPOINT_CATEGORIES. split.
  - intros Hnil category Hrequested (c & -> & Hc)%list_elem_of_fmap.
    by apply (filter_nil_not_elem_of _ _ c Hnil).
  - intros Hunknown. apply filter_none, Forall_forall.
    intros c Hc Hrequested. apply (Hunknown _ Hrequested).
    apply list_elem_of_fmap. eauto.
Qed.

(** X11.  A returned FrameworkSpec has an empty TestSpec list exactly when no
    benchmark mode was requested, or no endpoint mode, or no category that
    the catalogue has (a single string, even an empty one, is one mode). *)
Theorem tests_empty_iff dir frameworks endpoint_modes categories
    warmup_time time_limit request_limit rate_limit benchmark_modes
    specs fs :
  make_spec dir frameworks endpoint_modes categories warmup_time time_limit
    request_limit rate_limit benchmark_modes = Some specs →
  fs ∈ specs →
  FrameworkSpec.tests fs = [] ↔
    Py.as_tuple benchmark_modes = [] ∨ Py.as_tuple endpoint_modes = [] ∨
    ∀ category, category ∈ Py.as_tuple categories →
                category ∉ ENDPOINT_CATEGORIES.
Proof.
  intros Hrun Hfs.
  rewrite (make_spec_tests _ _ _ _ _ _ _ _ _ _ Hrun fs Hfs).
  rewrite <- selected_nil, <- cells_nil.
  - rewrite <- !length_zero_iff_nil, make_test_specs_length. nia.
  - intros c [_ Hc]%list_elem_of_filter.
    exact (proj1 (Forall_forall _ _) catalogue_endpoints_present c Hc).
Qed.

Lemma tests_empty_iff_witness :
  FrameworkSpec.tests
    (FrameworkSpec.mk "starlite" None Example.starlite_app []) = [] ↔
    Py.as_tuple (Py.Tuple []) = [] ∨ Py.as_tuple (Py.Str "") = [] ∨
    ∀ category, category ∈ Py.as_tuple (Py.Str "json") →
                category ∉ ENDPOINT_CATEGORIES.
Proof.
  apply (tests_empty_iff Example.dir ["starlite"] (Py.Str "")
           (Py.Str "json") None None None None (Py.Tuple [])
           [FrameworkSpec.mk "starlite" None Example.starlite_app []]
           (FrameworkSpec.mk "starlite" None Example.starlite_app [])).
  - vm_compute. reflexivity.
  - apply (bool_decide_unpack _). vm_compute. exact I.
Defined.

Lemma fmap_bind_comm {A B C} (f : B → C) (g : A → list B) (l : list A) :
  f <$> (l ≫= g) = l ≫= (λ x, f <$> g x).
Proof.
  induction l as [|x l IH]; [done|]. by rewrite !bind_cons, fmap_app, IH.
Qed.

Lemma append_inj_l (a b c : string) : a +:+ b = a +:+ c → b = c.
Proof. induction a as [|x a IH]; simpl; [done|]. intros [= ?]. auto. Qed.

(** The selected pairs are those pairs of the catalogue whose category was
    requested. *)
Lemma cells_filter (P : TestCategory.t → Prop) `{!∀ c, Decision (P c)}
    (categories : list TestCategory.t) :
  cells (filter P categories) = filter (λ ce, P ce.1) (cells categories).
Proof.
  induction categories as [|c categories IH]; [done|].
  rewrite filter_cons, cells_cons, filter_app, <- IH.
  destruct (decide (P c)) as [HP|HP].
  - rewrite cells_cons. f_equal. symmetry. apply filter_all.
    by apply Forall_fmap, Forall_true.
  - rewrite (filter_none (λ ce, P ce.1)
               (pair c <$> TestCategory.endpoints c)); [done|].
    by apply Forall_fmap, Forall_true.
Qed.

Lemma catalogue_slugs_distinct :
  NoDup ((λ ce, before_first "?" (Endpoint.path ce.2))
           <$> cells TEST_CATEGORIES).
Proof. by_evaluation. Qed.

Lemma test_keys framework_name warmup_time time_limit request_limit
    rate_limit benchmark_modes endpoint_modes selected :
  test_key <$> make_test_specs framework_name warmup_time time_limit
                 request_limit rate_limit benchmark_modes endpoint_modes
                 selected =
  (benchmark_mode ← benchmark_modes;
   endpoint_mode ← endpoint_modes;
   (λ ce, (benchmark_mode, endpoint_mode,
           endpoint_mode +:+ "-"
           +:+ before_first "?" (Endpoint.path ce.2)))
     <$> cells selected).
Proof.
  rewrite make_test_specs_loops, fmap_bind_comm.
  apply bind_ext_in. intros bm _. rewrite fmap_bind_comm.
  apply bind_ext_in. intros em _. rewrite <- list_fmap_compose.
  apply list_fmap_ext. intros _ ce _. unfold test_key. simpl.
  by rewrite split_unlimited_fst.
Qed.

(** X12.  When no benchmark mode and no endpoint mode is requested twice, no
    two TestSpecs of a FrameworkSpec have the same benchmark mode, endpoint
    mode and slug: the slug names the test within its two modes. *)
Theorem test_keys_distinct dir frameworks endpoint_modes categories
    warmup_time time_limit request_limit rate_limit benchmark_modes
    specs fs :
  make_spec dir frameworks endpoint_modes categories warmup_time time_limit
    request_limit rate_limit benchmark_modes = Some specs →
  fs ∈ specs →
  NoDup (Py.as_tuple benchmark_modes) → NoDup (Py.as_tuple endpoint_modes) →
  NoDup (test_key <$> FrameworkSpec.tests fs) ∧
  NoDup (FrameworkSpec.tests fs).
Proof.
  intros Hrun Hfs Hbms Hems.
  match goal with |- ?P ∧ _ => assert P as Hkeys end;
    [|split; [done|by apply NoDup_fmap_1 in Hkeys]].
  rewrite (make_spec_tests _ _ _ _ _ _ _ _ _ _ Hrun fs Hfs), test_keys.
  rewrite cells_filter.
  set (requested := filter _ (cells TEST_CATEGORIES)).
  apply NoDup_bind; [| |done].
  { intros bm1 bm2 key _ _ (em1 & (ce1 & -> & _)%list_elem_of_fmap & _)
      %list_elem_of_bind (em2 & (ce2 & Heq & _)%list_elem_of_fmap & _)
      %list_elem_of_bind. congruence. }
  intros bm _. apply NoDup_bind; [| |done].
  { intros em1 em2 key _ _ (ce1 & -> & _)%list_elem_of_fmap
      (ce2 & Heq & _)%list_elem_of_fmap. congruence. }
  intros em _. apply NoDup_fmap_2_strong.
  - intros ce1 ce2 [_ H1]%list_elem_of_filter [_ H2]%list_elem_of_filter Heq.
    apply (NoDup_fmap_elem_inj _ _ _ _ catalogue_slugs_distinct H1 H2).
    injection Heq as Heq. apply append_inj_l in Heq. by injection Heq.
  - apply NoDup_filter. exact (NoDup_fmap_1 _ _ catalogue_slugs_distinct).
Qed.

Lemma test_keys_distinct_witness :
  NoDup (test_key <$> Example.matrix_tests) ∧ NoDup Example.matrix_tests.
Proof.
  apply (test_keys_distinct Example.dir ["starlite"]
           (Py.Tuple ["sync"; "async"])
           (Py.Tuple ["dependency-injection"; "dynamic-response"])
           None None None None (Py.Tuple ["rps"; "latency"])
           [Example.matrix_spec] Example.matrix_spec).
  - vm_compute. reflexivity.
  - apply (bool_decide_unpack _). vm_compute. exact I.
  - apply (bool_decide_unpack _). vm_compute. exact I.
  - apply (bool_decide_unpack _). vm_compute. exact I.
Defined.

(** X13.  All FrameworkSpecs of one result carry the same test matrix: their
    TestSpec lists agree position by position in every field but
    [is_supported]. *)
Theorem same_matrix_for_all_frameworks dir frameworks endpoint_modes
    categories warmup_time time_limit request_limit rate_limit
    benchmark_modes specs fs1 fs2 :
  make_spec dir frameworks endpoint_modes categories warmup_time time_limit
    request_limit rate_limit benchmark_modes = Some specs →
  fs1 ∈ specs → fs2 ∈ specs →
  without_support <$> FrameworkSpec.tests fs1
  = without_support <$> FrameworkSpec.tests fs2.
Proof.
  intros Hrun Hfs1 Hfs2.
  rewrite (make_spec_tests _ _ _ _ _ _ _ _ _ _ Hrun fs1 Hfs1).
  rewrite (make_spec_tests _ _ _ _ _ _ _ _ _ _ Hrun fs2 Hfs2).
  rewrite !make_test_specs_loops, !fmap_bind_comm.
  apply bind_ext_in. intros bm _. rewrite !fmap_bind_comm.
  apply bind_ext_in. intros em _. by rewrite <- !list_fmap_compose.
Qed.

Lemma same_matrix_for_all_frameworks_witness :
  without_support <$> Example.sanic_tests
  = without_support <$> Example.starlite_tests.
Proof.
  apply (same_matrix_for_all_frameworks Example.dir Example.frameworks
           (Py.Str "sync") (Py.Str "dependency-injection") None None None
           None (Py.Str "rps") Example.specs Example.sanic_23
           Example.starlite).
  - vm_compute. reflexivity.
  - apply (bool_decide_unpack _). vm_compute. exact I.
  - apply (bool_decide_unpack _). vm_compute. exact I.
Defined.

(** ** Frameworks and the reference data *)

Lemma catalogue_frameworks_known :
  Forall (λ c, Forall (λ framework, framework ∈ FRAMEWORKS)
                 (TestCategory.frameworks c)) TEST_CATEGORIES.
Proof. by_evaluation. Qed.

(** X14.  A TestSpec is flagged as supported only for the frameworks of
    [FRAMEWORKS] (the keys of [FRAMEWORK_REPOS]): for an adapter of any other
    name, every TestSpec has [is_supported = false]. *)
Theorem supported_frameworks_are_known dir frameworks endpoint_modes
    categories warmup_time time_limit request_limit rate_limit
    benchmark_modes specs fs t :
  make_spec dir frameworks endpoint_modes categories warmup_time time_limit
    request_limit rate_limit benchmark_modes = Some specs →
  fs ∈ specs → t ∈ FrameworkSpec.tests fs →
  (TestSpec.is_supported t = true → FrameworkSpec.name fs ∈ FRAMEWORKS) ∧
  (FrameworkSpec.name fs ∉ FRAMEWORKS → TestSpec.is_supported t = false).
Proof.
  intros Hrun Hfs Ht.
  destruct (make_spec_produced _ _ _ _ _ _ _ _ _ _ Hrun fs t Hfs Ht)
    as (bm & em & c & e & _ & _ & Hc & _ & _ & ->).
  assert (TestSpec.is_supported
            (make_test_spec (FrameworkSpec.name fs) warmup_time time_limit
               request_limit rate_limit bm em c e) = true →
          FrameworkSpec.name fs ∈ FRAMEWORKS) as Hknown.
  { intros [Hin _]%make_test_spec_is_supported.
    pose proof (proj1 (Forall_forall _ _) catalogue_frameworks_known c Hc) as H.
    exact (proj1 (Forall_forall _ _) H _ Hin). }
  split; [done|]. intros Hunknown.
  destruct (TestSpec.is_supported _); [by destruct Hunknown; auto|done].
Qed.

Lemma supported_frameworks_are_known_witness :
  let t := TestSpec.mk "/async-response-headers" "async" "rps"
             "dynamic-response" "response headers" [] None (Some 15) None
             None "async-response-headers" false in
  (TestSpec.is_supported t = true → "quart" ∈ FRAMEWORKS) ∧
  ("quart" ∉ FRAMEWORKS → TestSpec.is_supported t = false).
Proof.
  apply (supported_frameworks_are_known
           (Listing [Path.mk "quart_app.py" true]) ["quart"] (Py.Str "async")
           (Py.Str "dynamic-response") None None None None (Py.Str "rps")
           [FrameworkSpec.mk "quart" None (Path.mk "quart_app.py" true)
              [TestSpec.mk "/async-response-headers" "async" "rps"
                 "dynamic-response" "response headers" [] None (Some 15) None
                 None "async-response-headers" false;
               TestSpec.mk "/async-response-cookies" "async" "rps"
                 "dynamic-response" "response cookies" [] None (Some 15) None
                 None "async-response-cookies" false]]
           (FrameworkSpec.mk "quart" None (Path.mk "quart_app.py" true)
              [TestSpec.mk "/async-response-headers" "async" "rps"
                 "dynamic-response" "response headers" [] None (Some 15) None
                 None "async-response-headers" false;
               TestSpec.mk "/async-response-cookies" "async" "rps"
                 "dynamic-response" "response cookies" [] None (Some 15) None
                 None "async-response-cookies" false])).
  - vm_compute. reflexivity.
  - apply (bool_decide_unpack _). vm_compute. exact I.
  - apply (bool_decide_unpack _). vm_compute. exact I.
Defined.

(** X15.  [CATEGORIES_BY_NAME] is a faithful index of the catalogue: looking
    a name up gives a category exactly when that category is in
    [TEST_CATEGORIES] under that name, so no category is lost to another of
    the same name, and the keys are the names of [ENDPOINT_CATEGORIES]. *)
Theorem categories_by_name_index name c :
  (CATEGORIES_BY_NAME !! name = Some c ↔
     c ∈ TEST_CATEGORIES ∧ TestCategory.name c = name) ∧
  (CATEGORIES_BY_NAME !! name = None ↔ name ∉ ENDPOINT_CATEGORIES) ∧
  size CATEGORIES_BY_NAME = length TEST_CATEGORIES.
Proof.
  split; [|split].
  - split.
    + intros Hlookup.
      assert (name ∈ ENDPOINT_CATEGORIES) as (c' & -> & Hc')%list_elem_of_fmap
        by (apply categories_by_name_keys; eauto).
      pose proof (proj1 (Forall_forall _ _) catalogue_index c' Hc') as Hindex.
      assert (c = c') as -> by congruence. done.
    + intros [Hc <-].
      exact (proj1 (Forall_forall _ _) catalogue_index c Hc).
  - rewrite <- categories_by_name_keys, eq_None_not_Some. done.
  - vm_compute. reflexivity.
Qed.
